(** * PyDIP value marshalling: the [type_caster]s of [pydip.h]

    A shallow embedding of the pybind11 type casters that PyDIP declares in
    [pydip/src/pydip.h], and of [ImageOrPixel], together with the properties
    of their [load] and [cast] members.

    Python values are an inductive type with one constructor per built-in
    kind the casters test for; the CPython type checks are boolean functions
    on it.  A [load] returns [Loaded v] where the C++ member returns [true]
    with [value = v], [NoMatch] where it returns [false], and [Throws e]
    where an exception leaves it.

    Integers of C++ are mathematical integers with their 64-bit range and
    wrap-around written out; a [double] is a binary64 value of
    [SpecFloat].  The DIPlib types the casters build ([dip::DataType],
    [dip::Tensor::Shape], [dip::Range], [dip::Image::Sample],
    [dip::Image::Pixel]) and the pybind11 and CPython calls they make are
    defined first, the casters after them, in the order of the header. *)

From Stdlib Require Import ZArith Bool Lia.
From Stdlib Require Import Floats.SpecFloat.
From stdpp Require Import base option list strings.

Set Warnings "-register-all".

Local Open Scope string_scope.
Local Open Scope Z_scope.

(** ** Python objects *)

(** [dip::dfloat] is [double]: an IEEE 754 binary64 value. *)
Definition dfloat : Type := spec_float.

(** [dip::dcomplex] is [std::complex<double>]: real and imaginary part. *)
Definition dcomplex : Type := (dfloat * dfloat)%type.

(** The Python values the casters can be handed.  A [PyUnicode] or [PyBytes]
    carries its characters, taken from the ASCII repertoire, on which
    pybind11's UTF-8 transcoding to and from [std::string] is the identity.
    [PyObject] is any other object; it offers neither the number nor the
    sequence protocol. *)
Inductive PyObj : Type :=
| PyNone
| PyBool (b : bool)
| PyLong (z : Z)
| PyFloat (f : dfloat)
| PyComplex (c : dcomplex)
| PyUnicode (s : string)
| PyBytes (s : string)
| PyList (items : list PyObj)
| PyTuple (items : list PyObj)
| PySlice (start stop step : PyObj)
| PyObject (id : nat).

(** A [py::handle]: [None] is the null handle, for which [!src] holds. *)
Definition handle : Type := option PyObj.

Definition PyNone_Check (o : PyObj) : bool :=
  match o with PyNone => true | _ => false end.

Definition PyBool_Check (o : PyObj) : bool :=
  match o with PyBool _ => true | _ => false end.

(** [PYBIND11_LONG_CHECK] is [PyLong_Check]; [bool] is a subclass of [int],
    so it holds for [True] and [False] too. *)
Definition PYBIND11_LONG_CHECK (o : PyObj) : bool :=
  match o with PyBool _ | PyLong _ => true | _ => false end.

Definition PyFloat_Check (o : PyObj) : bool :=
  match o with PyFloat _ => true | _ => false end.

Definition PyComplex_Check (o : PyObj) : bool :=
  match o with PyComplex _ => true | _ => false end.

Definition PyUnicode_Check (o : PyObj) : bool :=
  match o with PyUnicode _ => true | _ => false end.

Definition PYBIND11_BYTES_CHECK (o : PyObj) : bool :=
  match o with PyBytes _ => true | _ => false end.

Definition PyList_Check (o : PyObj) : bool :=
  match o with PyList _ => true | _ => false end.

(** [isinstance<sequence>] is [PySequence_Check]. *)
Definition isinstance_sequence (o : PyObj) : bool :=
  match o with
  | PyList _ | PyTuple _ | PyUnicode _ | PyBytes _ => true
  | _ => false
  end.

Definition isinstance_str (o : PyObj) : bool := PyUnicode_Check o.

(** The items a Python iteration over a sequence yields, in order: a string
    yields its one-character strings, a bytes object its byte values. *)
Definition sequence_items (o : PyObj) : list PyObj :=
  match o with
  | PyList items | PyTuple items => items
  | PyUnicode s => (λ c, PyUnicode (String c EmptyString)) <$> String.list_ascii_of_string s
  | PyBytes s => (λ c, PyLong (Z.of_N (Ascii.N_of_ascii c))) <$> String.list_ascii_of_string s
  | _ => []
  end.

(** [len(o)] of a sequence. *)
Definition sequence_size (o : PyObj) : nat :=
  match o with
  | PyList items | PyTuple items => length items
  | PyUnicode s | PyBytes s => String.length s
  | _ => 0%nat
  end.

(** ** Outcomes *)

(** The exceptions that leave the code: pybind11's [cast_error], and
    DIPlib's [dip::ParameterError] and [dip::RunTimeError] with the text
    they carry. *)
Inductive exception : Type :=
| cast_error
| ParameterError (what : string)
| RunTimeError (what : string).

(** Outcome of a [load] member. *)
Inductive loaded (A : Type) : Type :=
| Loaded (value : A)
| NoMatch
| Throws (e : exception).
Arguments Loaded {A} value.
Arguments NoMatch {A}.
Arguments Throws {A} e.

(** [loaded] is a monad: a [load] that returns [false] or throws ends the
    member that called it with the same outcome. *)
Global Instance loaded_bind : MBind loaded := λ A B k m,
  match m with
  | Loaded a => k a
  | NoMatch => NoMatch
  | Throws e => Throws e
  end.

Global Instance loaded_fmap : FMap loaded := λ A B f m,
  match m with
  | Loaded a => Loaded (f a)
  | NoMatch => NoMatch
  | Throws e => Throws e
  end.

(** Outcome of a function that returns or throws. *)
Inductive outcome (A : Type) : Type :=
| Returns (a : A)
| Raises (e : exception).
Arguments Returns {A} a.
Arguments Raises {A} e.

(** ** Machine integers *)

(** [dip::sint] is [std::ptrdiff_t] and [dip::uint] is [std::size_t], both
    64 bits wide, as is [dip::sint64]. *)
Definition sint_min : Z := - 2 ^ 63.
Definition sint_max : Z := 2 ^ 63 - 1.
Definition uint_max : Z := 2 ^ 64 - 1.

Definition fits_sint (z : Z) : bool := (sint_min <=? z) && (z <=? sint_max).
Definition fits_uint (z : Z) : bool := (0 <=? z) && (z <=? uint_max).

(** [static_cast< dip::uint >] of an integer: reduction modulo [2^64]. *)
Definition static_cast_uint (z : Z) : Z := z mod 2 ^ 64.

(** [static_cast< dip::sint >] of an integer: the two's complement
    reading of its low 64 bits. *)
Definition static_cast_sint (z : Z) : Z := (z + 2 ^ 63) mod 2 ^ 64 - 2 ^ 63.

(** Negation in [dip::sint], with its wrap-around at [sint_min]. *)
Definition sint_neg (z : Z) : Z := static_cast_sint (- z).

(** ** CPython and pybind11 conversions *)

(** The [double] nearest to an integer (ties to even); an infinity where
    the integer is beyond the range of [double]. *)
Definition dfloat_of_Z (z : Z) : dfloat := binary_normalize 53 1024 z 0 false.

(** [PyLong_AsDouble]: [None] stands for the [OverflowError]. *)
Definition PyLong_AsDouble (z : Z) : option dfloat :=
  match dfloat_of_Z z with
  | S754_infinity _ => None
  | f => Some f
  end.

Definition dfloat_is_zero (f : dfloat) : bool :=
  match f with S754_zero _ => true | _ => false end.

(** [PyLong_AsSsize_t] on an object for which [PYBIND11_LONG_CHECK] holds:
    the value, or [-1] (with the error indicator set) where it does not fit
    [Py_ssize_t]. *)
Definition PyLong_AsSsize_t (o : PyObj) : Z :=
  match o with
  | PyBool b => Z.b2z b
  | PyLong z => if fits_sint z then z else -1
  | _ => -1
  end.

(** The slot [tp_as_number->nb_bool] of the object's type, called on it. *)
Definition nb_bool (o : PyObj) : option bool :=
  match o with
  | PyBool b => Some b
  | PyLong z => Some (negb (z =? 0))
  | PyFloat f => Some (negb (dfloat_is_zero f))
  | PyComplex (re, im) => Some (negb (dfloat_is_zero re && dfloat_is_zero im))
  | _ => None
  end.

(** [PyFloat_AsDouble]: a float, or an integer through [__float__]. *)
Definition PyFloat_AsDouble (o : PyObj) : option dfloat :=
  match o with
  | PyFloat f => Some f
  | PyBool b => PyLong_AsDouble (Z.b2z b)
  | PyLong z => PyLong_AsDouble z
  | _ => None
  end.

(** [PyComplex_AsCComplex]: a complex, or a real number with imaginary
    part zero. *)
Definition PyComplex_AsCComplex (o : PyObj) : option dcomplex :=
  match o with
  | PyComplex c => Some c
  | _ => (λ re, (re, S754_zero false)) <$> PyFloat_AsDouble o
  end.

(** pybind11's [type_caster< bool >::load] with [convert = true]: [True]
    and [False], [None] as [false], and otherwise what [nb_bool] says. *)
Definition bool_caster_load (o : PyObj) : option bool :=
  match o with
  | PyBool b => Some b
  | PyNone => Some false
  | _ => nb_bool o
  end.

(** pybind11's [type_caster] of a signed 64-bit integer, [load] with
    [convert = true]: a float is refused, an integer must fit. *)
Definition sint_caster_load (o : PyObj) : option Z :=
  if PyFloat_Check o then None
  else match o with
       | PyBool b => Some (Z.b2z b)
       | PyLong z => if fits_sint z then Some z else None
       | _ => None
       end.

(** pybind11's [type_caster< double >::load] with [convert = true]: a
    float, or an integer rounded to the nearest [double]. *)
Definition dfloat_caster_load (o : PyObj) : option dfloat := PyFloat_AsDouble o.

(** pybind11's [type_caster< std::complex< double >>::load] with
    [convert = true]. *)
Definition dcomplex_caster_load (o : PyObj) : option dcomplex := PyComplex_AsCComplex o.

(** [handle::cast< T >()]: the caster's [load] with [convert = true]; a
    [cast_error] is thrown where it returns [false]. *)
Definition handle_cast {T} (caster_load : PyObj → option T) (o : PyObj) : loaded T :=
  match caster_load o with
  | Some v => Loaded v
  | None => Throws cast_error
  end.

(** pybind11's string caster, [load] to a [std::string]: the characters of
    a [str] or of a [bytes] object. *)
Definition String_caster_load (o : PyObj) : option string :=
  match o with
  | PyUnicode s | PyBytes s => Some s
  | _ => None
  end.

Definition cast_bool : PyObj → loaded bool := handle_cast bool_caster_load.
Definition cast_sint : PyObj → loaded Z := handle_cast sint_caster_load.
Definition cast_dfloat : PyObj → loaded dfloat := handle_cast dfloat_caster_load.
Definition cast_dcomplex : PyObj → loaded dcomplex := handle_cast dcomplex_caster_load.
Definition cast_String : PyObj → loaded string := handle_cast String_caster_load.

(** ** DIPlib types *)

Module dip.

(** Modelled from the spec: [dip::DataType] ([diplib/library/datatype.h], not
    among the sources at hand): the closed enumeration of sample
    representations, binary, unsigned and signed integers of each width,
    floats and complex values of each width. *)
Inductive DataType : Type :=
| DT_BIN
| DT_UINT8 | DT_SINT8
| DT_UINT16 | DT_SINT16
| DT_UINT32 | DT_SINT32
| DT_UINT64 | DT_SINT64
| DT_SFLOAT | DT_DFLOAT
| DT_SCOMPLEX | DT_DCOMPLEX.

Definition IsBinary (dt : DataType) : bool :=
  match dt with DT_BIN => true | _ => false end.

Definition IsFloat (dt : DataType) : bool :=
  match dt with DT_SFLOAT | DT_DFLOAT => true | _ => false end.

Definition IsComplex (dt : DataType) : bool :=
  match dt with DT_SCOMPLEX | DT_DCOMPLEX => true | _ => false end.

Definition IsInteger (dt : DataType) : bool :=
  negb (IsBinary dt || IsFloat dt || IsComplex dt).

(** Modelled from the spec: [dip::DataType::Name], the canonical name of a
    member. *)
Definition Name (dt : DataType) : string :=
  match dt with
  | DT_BIN => "BIN"
  | DT_UINT8 => "UINT8"
  | DT_SINT8 => "SINT8"
  | DT_UINT16 => "UINT16"
  | DT_SINT16 => "SINT16"
  | DT_UINT32 => "UINT32"
  | DT_SINT32 => "SINT32"
  | DT_UINT64 => "UINT64"
  | DT_SINT64 => "SINT64"
  | DT_SFLOAT => "SFLOAT"
  | DT_DFLOAT => "DFLOAT"
  | DT_SCOMPLEX => "SCOMPLEX"
  | DT_DCOMPLEX => "DCOMPLEX"
  end.

(** Modelled from the spec: the constructor [dip::DataType( String )], an
    exact name lookup; a name that is not recognised is a lookup error,
    thrown with the offending name. *)
Definition DataType_of_String (name : string) : loaded DataType :=
  if String.eqb name "BIN" then Loaded DT_BIN
  else if String.eqb name "UINT8" then Loaded DT_UINT8
  else if String.eqb name "SINT8" then Loaded DT_SINT8
  else if String.eqb name "UINT16" then Loaded DT_UINT16
  else if String.eqb name "SINT16" then Loaded DT_SINT16
  else if String.eqb name "UINT32" then Loaded DT_UINT32
  else if String.eqb name "SINT32" then Loaded DT_SINT32
  else if String.eqb name "UINT64" then Loaded DT_UINT64
  else if String.eqb name "SINT64" then Loaded DT_SINT64
  else if String.eqb name "SFLOAT" then Loaded DT_SFLOAT
  else if String.eqb name "DFLOAT" then Loaded DT_DFLOAT
  else if String.eqb name "SCOMPLEX" then Loaded DT_SCOMPLEX
  else if String.eqb name "DCOMPLEX" then Loaded DT_DCOMPLEX
  else Throws (ParameterError name).

Module Tensor.

(** Modelled from the spec: [dip::Tensor::Shape] ([diplib/library/tensor.h],
    not among the sources at hand): the closed enumeration of tensor layout
    categories. *)
Inductive Shape : Type :=
| COL_VECTOR
| ROW_VECTOR
| COL_MAJOR_MATRIX
| ROW_MAJOR_MATRIX
| DIAGONAL_MATRIX
| SYMMETRIC_MATRIX
| UPPTRIANG_MATRIX
| LOWTRIANG_MATRIX.

(** Modelled from the spec: [dip::Tensor::ShapeToString], the canonical name
    of a member. *)
Definition ShapeToString (shape : Shape) : string :=
  match shape with
  | COL_VECTOR => "column vector"
  | ROW_VECTOR => "row vector"
  | COL_MAJOR_MATRIX => "column-major matrix"
  | ROW_MAJOR_MATRIX => "row-major matrix"
  | DIAGONAL_MATRIX => "diagonal matrix"
  | SYMMETRIC_MATRIX => "symmetric matrix"
  | UPPTRIANG_MATRIX => "upper triangular matrix"
  | LOWTRIANG_MATRIX => "lower triangular matrix"
  end.

(** Modelled from the spec: [dip::Tensor::ShapeFromString], an exact name
    lookup; a name that is not recognised is a lookup error, thrown with the
    offending name. *)
Definition ShapeFromString (name : string) : loaded Shape :=
  if String.eqb name "column vector" then Loaded COL_VECTOR
  else if String.eqb name "row vector" then Loaded ROW_VECTOR
  else if String.eqb name "column-major matrix" then Loaded COL_MAJOR_MATRIX
  else if String.eqb name "row-major matrix" then Loaded ROW_MAJOR_MATRIX
  else if String.eqb name "diagonal matrix" then Loaded DIAGONAL_MATRIX
  else if String.eqb name "symmetric matrix" then Loaded SYMMETRIC_MATRIX
  else if String.eqb name "upper triangular matrix" then Loaded UPPTRIANG_MATRIX
  else if String.eqb name "lower triangular matrix" then Loaded LOWTRIANG_MATRIX
  else Throws (ParameterError name).

End Tensor.

(** Modelled from the spec: [dip::Range] ([diplib/library/types.h], not among
    the sources at hand): [start] and [stop] are [dip::sint], [step] is
    [dip::uint]. *)
Record Range : Type := MkRange { start : Z; stop : Z; step : Z }.

(** [dip::Range( i, j, s )]. *)
Definition Range_of (i j s : Z) : Range := MkRange i j s.

(** [dip::Range( i )], a single index: start and stop [i], step [1]. *)
Definition Range_single (i : Z) : Range := MkRange i i 1.

(** The fields of a [dip::Range] are machine integers. *)
Definition Range_wf (r : Range) : Prop :=
  fits_sint (start r) = true ∧ fits_sint (stop r) = true ∧ fits_uint (step r) = true.

(** Modelled from the spec: [dip::Image::Sample] ([diplib/library/image.h],
    not among the sources at hand): a tagged value that holds exactly one
    of a boolean, a signed 64-bit integer, a 64-bit float and a
    double-precision complex.  Each constructor is the C++ constructor from
    a value of that type. *)
Inductive Sample : Type :=
| Sample_bool (v : bool)
| Sample_sint (v : Z)
| Sample_dfloat (v : dfloat)
| Sample_dcomplex (v : dcomplex).

(** [Sample::DataType()], the tag. *)
Definition Sample_DataType (s : Sample) : DataType :=
  match s with
  | Sample_bool _ => DT_BIN
  | Sample_sint _ => DT_SINT64
  | Sample_dfloat _ => DT_DFLOAT
  | Sample_dcomplex _ => DT_DCOMPLEX
  end.

(** The zero of a data type's class, the content of a fresh buffer. *)
Definition Sample_zero (dt : DataType) : Sample :=
  if IsBinary dt then Sample_bool false
  else if IsComplex dt then Sample_dcomplex (S754_zero false, S754_zero false)
  else if IsFloat dt then Sample_dfloat (S754_zero false)
  else Sample_sint 0.

(** Modelled from the spec: [dip::Image::Pixel] ([diplib/library/image.h],
    not among the sources at hand): an ordered sequence of samples under
    one tag. *)
Record Pixel : Type := MkPixel { Pixel_DataType : DataType; Pixel_samples : list Sample }.

(** [dip::Image::Pixel( dt, n )]: [n] zeroed samples of type [dt]. *)
Definition Pixel_new (dt : DataType) (n : nat) : Pixel :=
  MkPixel dt (replicate n (Sample_zero dt)).

(** [dip::Image::Pixel( sample )]: one sample, under the sample's tag. *)
Definition Pixel_of_Sample (s : Sample) : Pixel :=
  MkPixel (Sample_DataType s) [s].

(** [*it = v] through a pixel iterator at position [it], for [v] of the
    pixel's own type: the sample there is overwritten.  The iterator of
    [load] stays within the pixel, which is as long as the list. *)
Definition Pixel_assign (p : Pixel) (it : nat) (v : Sample) : Pixel :=
  MkPixel (Pixel_DataType p) (<[it := v]> (Pixel_samples p)).

(** The invariant of a pixel: it is not empty and every sample carries the
    pixel's tag. *)
Definition Pixel_wf (p : Pixel) : Prop :=
  Pixel_samples p ≠ [] ∧ Forall (λ s, Sample_DataType s = Pixel_DataType p) (Pixel_samples p).

End dip.

(** ** The casters *)

(** [type_caster< dip::DimensionArray< Type >>]. *)
Module type_caster_DimensionArray.
Section WithType.
Context {Type_ : Type}.

(** [make_caster< Type >::load], the converter of the element type. *)
Variable value_conv_load : handle → bool → loaded Type_.

(** Modelled from the spec: pybind11's [list_caster::load] ([stl.h], not
    among the sources at hand): the items are converted one by one, in
    order, each pushed on the back of [value]; the first item that does
    not convert ends the load. *)
Fixpoint list_caster_push (items : list PyObj) (convert : bool) (value : list Type_)
  : loaded (list Type_) :=
  match items with
  | [] => Loaded value
  | it :: rest =>
      v ← value_conv_load (Some it) convert;
      list_caster_push rest convert (value ++ [v])%list
  end.

Definition list_caster_load (src : PyObj) (convert : bool) : loaded (list Type_) :=
  list_caster_push (sequence_items src) convert [].

Definition load (src : PyObj) (convert : bool) : loaded (list Type_) :=
  if isinstance_sequence src || isinstance_str src then
    list_caster_load src convert
  else
    (* value.clear() *)
    let value : list Type_ := [] in
    v ← value_conv_load (Some src) convert;
    Loaded (value ++ [v])%list.
End WithType.
End type_caster_DimensionArray.

(** [type_caster< dip::DataType >]. *)
Module type_caster_DataType.

Definition load (src : handle) (convert : bool) : loaded dip.DataType :=
  match src with
  | None => NoMatch
  | Some o =>
      if PYBIND11_BYTES_CHECK o || PyUnicode_Check o then
        name ← cast_String o; dip.DataType_of_String name
      else NoMatch
  end.

Definition cast (src : dip.DataType) : PyObj := PyUnicode (dip.Name src).

End type_caster_DataType.

(** [type_caster< dip::Tensor::Shape >]. *)
Module type_caster_Tensor_Shape.

Definition load (src : handle) (convert : bool) : loaded dip.Tensor.Shape :=
  match src with
  | None => NoMatch
  | Some o =>
      if PYBIND11_BYTES_CHECK o || PyUnicode_Check o then
        name ← cast_String o; dip.Tensor.ShapeFromString name
      else NoMatch
  end.

Definition cast (src : dip.Tensor.Shape) : PyObj :=
  PyUnicode (dip.Tensor.ShapeToString src).

End type_caster_Tensor_Shape.

(** [type_caster< dip::Range >]. *)
Module type_caster_Range.

(** One component of a slice: [dflt] where it is [None], its
    [PyLong_AsSsize_t] where it is an integer, and the load returns
    [false] otherwise. *)
Definition component (o : PyObj) (dflt : Z) : loaded Z :=
  if PyNone_Check o then Loaded dflt
  else if PYBIND11_LONG_CHECK o then Loaded (PyLong_AsSsize_t o)
  else NoMatch.

Definition load (src : handle) (convert : bool) : loaded dip.Range :=
  match src with
  | None => NoMatch
  | Some o =>
      match o with
      | PySlice ptr_start ptr_stop ptr_step =>   (* PySlice_Check( src.ptr() ) *)
          step ← component ptr_step 1;
          start ← component ptr_start (if step <? 0 then -1 else 0);
          stop ← component ptr_stop (if step <? 0 then 0 else -1);
          let step := if step <? 0 then sint_neg step else step in
          Loaded (dip.Range_of start stop (static_cast_uint step))
      | _ =>
          if PYBIND11_LONG_CHECK o then
            i ← cast_sint o;                  (* src.cast< dip::sint >() *)
            Loaded (dip.Range_single i)
          else NoMatch
      end
  end.

(** [slice( start, stop, step )] builds a slice whose three components
    are Python integers. *)
Definition cast (src : dip.Range) : PyObj :=
  PySlice (PyLong (dip.start src)) (PyLong (dip.stop src))
          (PyLong (static_cast_sint (dip.step src))).

End type_caster_Range.

(** [type_caster< dip::Image::Sample >]. *)
Module type_caster_Sample.

Definition load (src : handle) (convert : bool) : loaded dip.Sample :=
  match src with
  | None => NoMatch
  | Some o =>
      if PyBool_Check o then
        v ← cast_bool o; Loaded (dip.Sample_bool v)
      else if PYBIND11_LONG_CHECK o then
        v ← cast_sint o; Loaded (dip.Sample_sint v)
      else if PyFloat_Check o then
        v ← cast_dfloat o; Loaded (dip.Sample_dfloat v)
      else if PyComplex_Check o then
        v ← cast_dcomplex o; Loaded (dip.Sample_dcomplex v)
      else NoMatch
  end.

(** The tag of a sample fixes the type of the value it holds, so each
    branch of the dispatch on [src.DataType()] reads the held value. *)
Definition cast (src : dip.Sample) : PyObj :=
  match src with
  | dip.Sample_bool v => PyBool v          (* DataType().IsBinary() *)
  | dip.Sample_dcomplex v => PyComplex v   (* DataType().IsComplex() *)
  | dip.Sample_dfloat v => PyFloat v       (* DataType().IsFloat() *)
  | dip.Sample_sint v => PyLong v          (* IsInteger() *)
  end.

End type_caster_Sample.

(** [type_caster< dip::Image::Pixel >]. *)
Module type_caster_Pixel.

(** The loop [for( auto in : src ) { *it = in.cast< T >(); ++it; }] over
    the items still to come, the iterator at position [it]. *)
Fixpoint assign_all (conv : PyObj → loaded dip.Sample) (ins : list PyObj)
    (it : nat) (value : dip.Pixel) : loaded dip.Pixel :=
  match ins with
  | [] => Loaded value
  | in_ :: rest =>
      v ← conv in_;
      assign_all conv rest (S it) (dip.Pixel_assign value it v)
  end.

Definition load (src : handle) (convert : bool) : loaded dip.Pixel :=
  match src with
  | None => NoMatch
  | Some o =>
      match o with
      | PyList list =>                           (* PyList_Check( src.ptr() ) *)
          let n := length list in
          match list with
          | [] => NoMatch                        (* n == 0 *)
          | list_0 :: _ =>
              if PyBool_Check list_0 then
                assign_all (λ in_, dip.Sample_bool <$> cast_bool in_) list 0
                           (dip.Pixel_new dip.DT_BIN n)
              else if PYBIND11_LONG_CHECK list_0 then
                assign_all (λ in_, dip.Sample_sint <$> cast_sint in_) list 0
                           (dip.Pixel_new dip.DT_SINT64 n)
              else if PyFloat_Check list_0 then
                assign_all (λ in_, dip.Sample_dfloat <$> cast_dfloat in_) list 0
                           (dip.Pixel_new dip.DT_DFLOAT n)
              else if PyComplex_Check list_0 then
                assign_all (λ in_, dip.Sample_dcomplex <$> cast_dcomplex in_) list 0
                           (dip.Pixel_new dip.DT_DCOMPLEX n)
              else NoMatch
          end
      | _ =>
          conv ← type_caster_Sample.load src convert;
          Loaded (dip.Pixel_of_Sample conv)
      end
  end.

Section Cast.
(** DIPlib's conversion of a sample to a type other than the one it holds
    ([clamp_cast], not among the sources at hand), one per target type. *)
Variable clamp_cast_bool : dip.Sample → bool.
Variable clamp_cast_dcomplex : dip.Sample → dcomplex.
Variable clamp_cast_dfloat : dip.Sample → dfloat.
Variable clamp_cast_sint : dip.Sample → Z.

(** [static_cast< T >( in )]: the held value where the sample holds a [T],
    its conversion to [T] otherwise. *)
Definition static_cast_bool (in_ : dip.Sample) : bool :=
  match in_ with dip.Sample_bool v => v | _ => clamp_cast_bool in_ end.

Definition static_cast_dcomplex (in_ : dip.Sample) : dcomplex :=
  match in_ with dip.Sample_dcomplex v => v | _ => clamp_cast_dcomplex in_ end.

Definition static_cast_dfloat (in_ : dip.Sample) : dfloat :=
  match in_ with dip.Sample_dfloat v => v | _ => clamp_cast_dfloat in_ end.

Definition static_cast_sample_sint (in_ : dip.Sample) : Z :=
  match in_ with dip.Sample_sint v => v | _ => clamp_cast_sint in_ end.

(** One branch on the tag of the pixel; every sample is appended to the
    list [out] as a Python value of the type of that branch. *)
Definition cast (src : dip.Pixel) : PyObj :=
  let out :=
    if dip.IsBinary (dip.Pixel_DataType src) then
      (λ in_, PyBool (static_cast_bool in_)) <$> dip.Pixel_samples src
    else if dip.IsComplex (dip.Pixel_DataType src) then
      (λ in_, PyComplex (static_cast_dcomplex in_)) <$> dip.Pixel_samples src
    else if dip.IsFloat (dip.Pixel_DataType src) then
      (λ in_, PyFloat (static_cast_dfloat in_)) <$> dip.Pixel_samples src
    else
      (λ in_, PyLong (static_cast_sample_sint in_)) <$> dip.Pixel_samples src
  in PyList out.
End Cast.

End type_caster_Pixel.

(** ** [ImageOrPixel] *)

Section ImageOrPixel.
(** [dip::Image] and the two operations on it the function uses: the
    [load] of pybind11's caster for the registered class, which reports a
    mismatch by returning [false], and the constructor from a pixel. *)
Context {Image : Type}.
Variable image_caster_load : handle → bool → option Image.
Variable Image_of_Pixel : dip.Pixel → Image.

Definition ImageOrPixel (obj : PyObj) : outcome Image :=
  match image_caster_load (Some obj) true with
  | Some image => Returns image
  | None =>
      match type_caster_Pixel.load (Some obj) true with
      | Loaded pixel => Returns (Image_of_Pixel pixel)
      | NoMatch => Raises (RunTimeError "Cannot convert input to dip::Image")
      | Throws e => Raises e
      end
  end.
End ImageOrPixel.

(** ** Vocabulary of the properties *)

(** Converting the items of a list in order, each through [f]; the first
    item that does not convert decides the outcome. *)
Fixpoint loaded_mapM {A B} (f : A → loaded B) (l : list A) : loaded (list B) :=
  match l with
  | [] => Loaded []
  | x :: rest => v ← f x; vs ← loaded_mapM f rest; Loaded (v :: vs)
  end.

(** The tag a Python scalar stands for, its dynamic type tried as a
    boolean, then an integer, then a float, then a complex. *)
Definition tag_of_scalar (o : PyObj) : option dip.DataType :=
  if PyBool_Check o then Some dip.DT_BIN
  else if PYBIND11_LONG_CHECK o then Some dip.DT_SINT64
  else if PyFloat_Check o then Some dip.DT_DFLOAT
  else if PyComplex_Check o then Some dip.DT_DCOMPLEX
  else None.

(** The scalar conversion of a tag: the Python value converted to the C++
    type of the tag and held as a sample; it throws where the value does
    not convert. *)
Definition scalar_conversion (dt : dip.DataType) (o : PyObj) : loaded dip.Sample :=
  if dip.IsBinary dt then dip.Sample_bool <$> cast_bool o
  else if dip.IsComplex dt then dip.Sample_dcomplex <$> cast_dcomplex o
  else if dip.IsFloat dt then dip.Sample_dfloat <$> cast_dfloat o
  else dip.Sample_sint <$> cast_sint o.

(** A sample built from a C++ value: a held integer is a [dip::sint]. *)
Definition Sample_wf (s : dip.Sample) : Prop :=
  match s with
  | dip.Sample_sint v => fits_sint v = true
  | _ => True
  end.

(** A component of a slice as Python sees it: unset, or an integer. *)
Definition slice_component (c : option Z) : PyObj :=
  match c with
  | None => PyNone
  | Some z => PyLong z
  end.

(** A set component is an integer that fits [dip::sint]. *)
Definition component_fits (c : option Z) : Prop :=
  match c with
  | None => True
  | Some z => fits_sint z = true
  end.

(** A slice component [load] can read: [None] or an integer. *)
Definition slice_component_ok (o : PyObj) : bool :=
  PyNone_Check o || PYBIND11_LONG_CHECK o.

(** The text check of the enumeration casters: a [bytes] or a [str]. *)
Definition is_text (o : PyObj) : bool :=
  PYBIND11_BYTES_CHECK o || PyUnicode_Check o.

(** ** Machine integers: facts *)

Global Arguments fits_sint : simpl never.
Global Arguments fits_uint : simpl never.
Global Arguments static_cast_sint : simpl never.
Global Arguments static_cast_uint : simpl never.
Global Arguments sint_neg : simpl never.

Lemma fits_sint_iff z : fits_sint z = true ↔ sint_min ≤ z ≤ sint_max.
Proof. unfold fits_sint. rewrite andb_true_iff, !Z.leb_le. tauto. Qed.

Lemma fits_uint_iff z : fits_uint z = true ↔ 0 ≤ z ≤ uint_max.
Proof. unfold fits_uint. rewrite andb_true_iff, !Z.leb_le. tauto. Qed.

Lemma static_cast_sint_fits z : fits_sint z = true → static_cast_sint z = z.
Proof.
  rewrite fits_sint_iff. unfold sint_min, sint_max, static_cast_sint. intros H.
  rewrite Z.mod_small; lia.
Qed.

Lemma static_cast_uint_fits z : fits_uint z = true → static_cast_uint z = z.
Proof.
  rewrite fits_uint_iff. unfold uint_max, static_cast_uint. intros H.
  apply Z.mod_small. lia.
Qed.

(** The negation of a negative [dip::sint], read as a [dip::uint], is its
    magnitude, also at [sint_min] where the negation wraps around. *)
Lemma uint_of_sint_neg z :
  fits_sint z = true → z < 0 → static_cast_uint (sint_neg z) = Z.abs z.
Proof.
  rewrite fits_sint_iff. unfold sint_min, sint_max. intros Hz Hneg.
  unfold static_cast_uint, sint_neg, static_cast_sint.
  destruct (decide (z = - 2 ^ 63)) as [->|Hne]; [reflexivity|].
  rewrite (Z.mod_small (- z + 2 ^ 63)) by lia.
  rewrite Z.mod_small by lia. lia.
Qed.

Lemma PyLong_AsSsize_t_fits z : fits_sint z = true → PyLong_AsSsize_t (PyLong z) = z.
Proof. intros H. simpl. by rewrite H. Qed.

Lemma cast_sint_fits z : fits_sint z = true → cast_sint (PyLong z) = Loaded z.
Proof. intros H. unfold cast_sint, handle_cast, sint_caster_load. simpl. by rewrite H. Qed.

(** ** [type_caster< dip::Range >] *)

Lemma Range_component_set z dflt :
  fits_sint z = true → type_caster_Range.component (PyLong z) dflt = Loaded z.
Proof. intros H. unfold type_caster_Range.component. simpl. by rewrite H. Qed.

Lemma Range_component_slice c dflt :
  component_fits c →
  type_caster_Range.component (slice_component c) dflt = Loaded (default dflt c).
Proof. destruct c as [z|]; simpl; [apply Range_component_set | done]. Qed.

(** What [load] stores for a slice whose set components fit. *)
Lemma Range_load_slice (start stop step : option Z) convert :
  component_fits start → component_fits stop → component_fits step →
  type_caster_Range.load
    (Some (PySlice (slice_component start) (slice_component stop) (slice_component step)))
    convert =
  Loaded (dip.MkRange
            (default (if default 1 step <? 0 then -1 else 0) start)
            (default (if default 1 step <? 0 then 0 else -1) stop)
            (Z.abs (default 1 step))).
Proof.
  intros Hstart Hstop Hstep. unfold type_caster_Range.load.
  rewrite (Range_component_slice step) by done. simpl.
  rewrite (Range_component_slice start) by done. simpl.
  rewrite (Range_component_slice stop) by done. simpl.
  unfold dip.Range_of. do 2 f_equal.
  destruct (Z.ltb_spec (default 1 step) 0) as [Hneg|Hpos].
  - apply uint_of_sint_neg; [|done].
    destruct step as [z|]; simpl in *; [done | lia].
  - rewrite Z.abs_eq by done. apply static_cast_uint_fits.
    assert (fits_sint (default 1 step) = true) as Hf
      by (destruct step; simpl in *; done).
    apply fits_sint_iff in Hf. apply fits_uint_iff.
    unfold sint_max, uint_max in *. lia.
Qed.

(** Outside [dip::sint] the slice branch reads the error value of
    [PyLong_AsSsize_t], which it does not test, as the component: a step of
    [2^70] loads as a step of [-1] would. *)
Lemma Range_load_step_overflow convert :
  type_caster_Range.load (Some (PySlice PyNone PyNone (PyLong (2 ^ 70)))) convert
  = Loaded (dip.MkRange (-1) 0 1).
Proof. reflexivity. Qed.

(** C2: [load] of an integer [i] that fits [dip::sint] is the range with
    start [i], stop [i] and step [1].  For a slice whose set components fit
    [dip::sint], an unset step reads as [1]; an unset start is [-1] where
    the given step is negative and [0] otherwise; an unset stop is [0] where
    the given step is negative and [-1] otherwise; and the step stored is
    the magnitude of the given one.  So [slice(None, None, None)] loads as
    [{0, -1, 1}], [slice(None, None, -1)] as [{-1, 0, 1}] and
    [slice(2, 5, 1)] as [{2, 5, 1}]. *)
Theorem Range_load_normalizes (i : Z) (start stop step : option Z) (convert : bool) :
  fits_sint i = true →
  component_fits start → component_fits stop → component_fits step →
  let given_negative := match step with Some s => s <? 0 | None => false end in
  type_caster_Range.load (Some (PyLong i)) convert = Loaded (dip.MkRange i i 1)
  ∧ type_caster_Range.load
      (Some (PySlice (slice_component start) (slice_component stop) (slice_component step)))
      convert =
    Loaded (dip.MkRange
              (match start with Some z => z | None => if given_negative then -1 else 0 end)
              (match stop with Some z => z | None => if given_negative then 0 else -1 end)
              (match step with Some s => Z.abs s | None => 1 end))
  ∧ type_caster_Range.load (Some (PySlice PyNone PyNone PyNone)) convert
    = Loaded (dip.MkRange 0 (-1) 1)
  ∧ type_caster_Range.load (Some (PySlice PyNone PyNone (PyLong (-1)))) convert
    = Loaded (dip.MkRange (-1) 0 1)
  ∧ type_caster_Range.load (Some (PySlice (PyLong 2) (PyLong 5) (PyLong 1))) convert
    = Loaded (dip.MkRange 2 5 1).
Proof.
  intros Hi Hstart Hstop Hstep given_negative.
  split; [|split; [|by repeat split]].
  - unfold type_caster_Range.load. simpl. by rewrite (cast_sint_fits i Hi).
  - rewrite Range_load_slice by done. subst given_negative.
    destruct start, stop, step; reflexivity.
Qed.

Lemma Range_load_normalizes_witness :
  type_caster_Range.load (Some (PyLong 7)) true = Loaded (dip.MkRange 7 7 1)
  ∧ type_caster_Range.load (Some (PySlice PyNone (PyLong 4) (PyLong (-3)))) true
    = Loaded (dip.MkRange (-1) 4 3).
Proof.
  destruct (Range_load_normalizes 7 None (Some 4) (Some (-3)) true)
    as (H1 & H2 & _); [reflexivity | exact I | reflexivity | reflexivity |].
  split; [exact H1 | exact H2].
Defined.

(** C9: for a range whose fields are machine integers and whose step is
    representable as a [dip::sint], [cast] builds the slice of the three
    fields, all set, and [load] of that slice gives the range back. *)
Theorem Range_load_cast (r : dip.Range) (convert : bool) :
  dip.Range_wf r → dip.step r ≤ sint_max →
  type_caster_Range.cast r
  = PySlice (PyLong (dip.start r)) (PyLong (dip.stop r)) (PyLong (dip.step r))
  ∧ type_caster_Range.load (Some (type_caster_Range.cast r)) convert = Loaded r.
Proof.
  intros (Hstart & Hstop & Hstep) Hsigned.
  apply fits_uint_iff in Hstep.
  assert (fits_sint (dip.step r) = true) as Hfit
    by (apply fits_sint_iff; unfold sint_min; lia).
  assert (type_caster_Range.cast r
          = PySlice (PyLong (dip.start r)) (PyLong (dip.stop r)) (PyLong (dip.step r)))
    as Hcast by (unfold type_caster_Range.cast; by rewrite static_cast_sint_fits).
  split; [exact Hcast|]. rewrite Hcast.
  rewrite (Range_load_slice (Some (dip.start r)) (Some (dip.stop r)) (Some (dip.step r)))
    by done.
  simpl. rewrite Z.abs_eq by lia. by destruct r.
Qed.

Lemma Range_load_cast_witness :
  type_caster_Range.load (Some (type_caster_Range.cast (dip.MkRange 2 (-1) 3))) true
  = Loaded (dip.MkRange 2 (-1) 3).
Proof.
  apply (Range_load_cast (dip.MkRange 2 (-1) 3) true).
  - repeat split.
  - vm_compute. discriminate.
Defined.

(** ** The enumeration casters *)

(** C7: for every member of [dip::DataType] and every member of
    [dip::Tensor::Shape], [cast] to the canonical name followed by [load] of
    that name gives the member back. *)
Theorem Enum_load_cast (convert : bool) :
  (∀ x : dip.DataType,
      type_caster_DataType.load (Some (type_caster_DataType.cast x)) convert = Loaded x)
  ∧ (∀ x : dip.Tensor.Shape,
      type_caster_Tensor_Shape.load (Some (type_caster_Tensor_Shape.cast x)) convert
      = Loaded x).
Proof. split; intros []; reflexivity. Qed.

(** The names are pairwise distinct: the lookup is one-to-one on them. *)
Lemma DataType_Name_inj : Inj (=) (=) dip.Name.
Proof.
  intros x y Hxy.
  assert (dip.DataType_of_String (dip.Name x) = dip.DataType_of_String (dip.Name y)) as H
    by (by rewrite Hxy).
  destruct x, y; (reflexivity || discriminate H).
Qed.

Lemma ShapeToString_inj : Inj (=) (=) dip.Tensor.ShapeToString.
Proof.
  intros x y Hxy.
  assert (dip.Tensor.ShapeFromString (dip.Tensor.ShapeToString x)
          = dip.Tensor.ShapeFromString (dip.Tensor.ShapeToString y)) as H
    by (by rewrite Hxy).
  destruct x, y; (reflexivity || discriminate H).
Qed.

(** ** [type_caster< dip::Image::Sample >] *)

(** [load] is the scalar conversion of the tag that the dynamic type of
    the input stands for. *)
Lemma Sample_load_by_tag o convert :
  type_caster_Sample.load (Some o) convert
  = match tag_of_scalar o with
    | Some dt => scalar_conversion dt o
    | None => NoMatch
    end.
Proof.
  unfold type_caster_Sample.load, tag_of_scalar.
  destruct (PyBool_Check o); [done|]. destruct (PYBIND11_LONG_CHECK o); [done|].
  destruct (PyFloat_Check o); [done|]. by destruct (PyComplex_Check o).
Qed.

(** A sample that [load] produces carries the tag of the input's dynamic
    type. *)
Lemma Sample_load_tag o convert s :
  type_caster_Sample.load (Some o) convert = Loaded s →
  tag_of_scalar o = Some (dip.Sample_DataType s).
Proof.
  unfold type_caster_Sample.load, tag_of_scalar.
  destruct (PyBool_Check o); [|destruct (PYBIND11_LONG_CHECK o);
    [|destruct (PyFloat_Check o); [|destruct (PyComplex_Check o); [|done]]]].
  - destruct (cast_bool o); intros H; by simplify_eq/=.
  - destruct (cast_sint o); intros H; by simplify_eq/=.
  - destruct (cast_dfloat o); intros H; by simplify_eq/=.
  - destruct (cast_dcomplex o); intros H; by simplify_eq/=.
Qed.

(** C3: [load] tries the dynamic type of its input as a boolean, then an
    integer, then a float, then a complex, and the first that matches
    decides the tag of the sample: a boolean gives a binary sample although
    it passes the integer check and converts to an integer; an integer
    gives a signed integer sample (the conversion throws where it does not
    fit [dip::sint]); a float a float sample; a complex a complex sample.
    An input of none of these types, and the null handle, make [load]
    return [false]. *)
Theorem Sample_load_dispatch (convert : bool) :
  (∀ b, type_caster_Sample.load (Some (PyBool b)) convert = Loaded (dip.Sample_bool b)
        ∧ PYBIND11_LONG_CHECK (PyBool b) = true
        ∧ cast_sint (PyBool b) = Loaded (Z.b2z b))
  ∧ (∀ z, type_caster_Sample.load (Some (PyLong z)) convert
          = if fits_sint z then Loaded (dip.Sample_sint z) else Throws cast_error)
  ∧ (∀ f, type_caster_Sample.load (Some (PyFloat f)) convert = Loaded (dip.Sample_dfloat f))
  ∧ (∀ c, type_caster_Sample.load (Some (PyComplex c)) convert
          = Loaded (dip.Sample_dcomplex c))
  ∧ (∀ o, type_caster_Sample.load (Some o) convert
          = match tag_of_scalar o with
            | Some dt => scalar_conversion dt o
            | None => NoMatch
            end)
  ∧ (∀ o s, type_caster_Sample.load (Some o) convert = Loaded s →
            tag_of_scalar o = Some (dip.Sample_DataType s))
  ∧ type_caster_Sample.load None convert = NoMatch.
Proof.
  repeat split.
  - intros z. unfold type_caster_Sample.load, cast_sint, handle_cast, sint_caster_load.
    simpl. by destruct (fits_sint z).
  - intros o. apply Sample_load_by_tag.
  - intros o s. apply Sample_load_tag.
Qed.

(** C6: [cast] sends a binary sample to a Python boolean, a complex sample
    to a complex, a float sample to a float and any other, an integer
    sample, to an integer; and for a sample built from a value of its
    tag's C++ type, [load] of what [cast] gives is the sample again. *)
Theorem Sample_load_cast (s : dip.Sample) (convert : bool) :
  Sample_wf s →
  type_caster_Sample.load (Some (type_caster_Sample.cast s)) convert = Loaded s
  ∧ type_caster_Sample.cast s
    = match s with
      | dip.Sample_bool v => PyBool v
      | dip.Sample_sint v => PyLong v
      | dip.Sample_dfloat v => PyFloat v
      | dip.Sample_dcomplex v => PyComplex v
      end
  ∧ PyBool_Check (type_caster_Sample.cast s) = dip.IsBinary (dip.Sample_DataType s)
  ∧ PyComplex_Check (type_caster_Sample.cast s) = dip.IsComplex (dip.Sample_DataType s)
  ∧ PyFloat_Check (type_caster_Sample.cast s) = dip.IsFloat (dip.Sample_DataType s)
  ∧ (PYBIND11_LONG_CHECK (type_caster_Sample.cast s)
     && negb (PyBool_Check (type_caster_Sample.cast s)))
    = dip.IsInteger (dip.Sample_DataType s).
Proof.
  intros Hwf. split; [|by destruct s].
  destruct s as [v|v|v|v]; simpl in *; try reflexivity.
  unfold type_caster_Sample.load. simpl. by rewrite (cast_sint_fits v Hwf).
Qed.

Lemma Sample_load_cast_witness :
  type_caster_Sample.load (Some (type_caster_Sample.cast (dip.Sample_sint (-42)))) true
  = Loaded (dip.Sample_sint (-42))
  ∧ type_caster_Sample.cast (dip.Sample_sint (-42)) = PyLong (-42).
Proof.
  destruct (Sample_load_cast (dip.Sample_sint (-42)) true) as (H1 & H2 & _);
    [reflexivity|].
  split; [exact H1 | exact H2].
Defined.

(** ** Converting a list item by item *)

Lemma fmap_Loaded {A B} (f : A → B) (m : loaded A) (b : B) :
  f <$> m = Loaded b ↔ ∃ a, m = Loaded a ∧ b = f a.
Proof.
  destruct m as [a| |e]; simpl; split; try done.
  - intros [= <-]. by exists a.
  - by intros (a' & [= <-] & ->).
  - by intros (a' & ? & _).
  - by intros (a' & ? & _).
Qed.

Lemma fmap_Throws {A B} (f : A → B) (m : loaded A) e :
  f <$> m = Throws e ↔ m = Throws e.
Proof. destruct m; simpl; split; congruence. Qed.

Lemma loaded_mapM_Forall2 {A B} (f : A → loaded B) l vs :
  loaded_mapM f l = Loaded vs ↔ Forall2 (λ x v, f x = Loaded v) l vs.
Proof.
  revert vs. induction l as [|x l IH]; intros vs; simpl.
  - split; [intros [= <-]; constructor | by inversion 1].
  - split.
    + destruct (f x) as [v| |e] eqn:Hx; simpl; [|done..].
      destruct (loaded_mapM f l) as [vs'| |e] eqn:Hl; simpl; [|done..].
      intros [= <-]. constructor; [done|]. by apply IH.
    + inversion 1 as [|? v ? vs' Hx Hl]; subst.
      rewrite Hx. simpl. apply IH in Hl. by rewrite Hl.
Qed.

Lemma loaded_mapM_length {A B} (f : A → loaded B) l vs :
  loaded_mapM f l = Loaded vs → length vs = length l.
Proof. rewrite loaded_mapM_Forall2. intros H. symmetry. by eapply Forall2_length. Qed.

(** Where every item either converts or throws [e], one item that throws
    makes the whole conversion throw [e]. *)
Lemma loaded_mapM_Throws {A B} (f : A → loaded B) l e :
  (∀ x, x ∈ l → f x = Throws e ∨ ∃ v, f x = Loaded v) →
  (∃ x, x ∈ l ∧ f x = Throws e) →
  loaded_mapM f l = Throws e.
Proof.
  induction l as [|x l IH]; intros Hall (y & Hy & Hfy).
  - by apply elem_of_nil in Hy.
  - simpl. destruct (Hall x) as [Hx|[v Hx]]; [left | by rewrite Hx |].
    rewrite Hx. simpl.
    apply elem_of_cons in Hy as [->|Hy]; [congruence|].
    rewrite IH; [done | | by exists y].
    intros z Hz. apply Hall. by right.
Qed.

Lemma loaded_mapM_Throws_inv {A B} (f : A → loaded B) l e :
  loaded_mapM f l = Throws e → ∃ x, x ∈ l ∧ f x = Throws e.
Proof.
  induction l as [|x l IH]; simpl; [done|].
  destruct (f x) as [v| |e'] eqn:Hx; simpl; [|done|].
  - destruct (loaded_mapM f l) as [vs| |e'] eqn:Hl; simpl; [done..|].
    intros [= ->]. destruct IH as (y & Hy & Hfy); [done|].
    exists y. split; [by right | done].
  - intros [= ->]. exists x. split; [by left | done].
Qed.

Lemma loaded_mapM_total {A B} (f : A → loaded B) l :
  (∀ x, x ∈ l → ∃ v, f x = Loaded v) → ∃ vs, loaded_mapM f l = Loaded vs.
Proof.
  induction l as [|x l IH]; intros Hall; [by exists []|].
  destruct (Hall x) as [v Hx]; [left|].
  destruct IH as [vs Hl]; [intros z Hz; apply Hall; by right|].
  exists (v :: vs). simpl. rewrite Hx. simpl. by rewrite Hl.
Qed.

(** ** [type_caster< dip::Image::Pixel >] *)

(** The loop over the items writes their conversions, in order, at the
    positions from [it] on, and leaves the other samples as they are. *)
Lemma assign_all_mapM conv ins : ∀ it value,
  (it + length ins ≤ length (dip.Pixel_samples value))%nat →
  type_caster_Pixel.assign_all conv ins it value
  = (λ vs, dip.MkPixel (dip.Pixel_DataType value)
             (take it (dip.Pixel_samples value) ++ vs
              ++ drop (it + length ins) (dip.Pixel_samples value))%list)
    <$> loaded_mapM conv ins.
Proof.
  induction ins as [|in_ rest IH]; intros it [dt samples] Hlen; simpl in *.
  - rewrite Nat.add_0_r, take_drop. reflexivity.
  - destruct (conv in_) as [v| |e]; simpl; [|done..].
    rewrite IH by (simpl; rewrite length_insert; lia). simpl.
    destruct (loaded_mapM conv rest) as [vs| |e]; simpl; [|done..].
    do 2 f_equal.
    rewrite (take_S_r _ _ v) by (apply list_lookup_insert_eq; lia).
    rewrite take_insert_ge by lia.
    rewrite drop_insert_lt by lia.
    rewrite <- (assoc_L (++)). simpl. by rewrite Nat.add_succ_r.
Qed.

(** On a fresh pixel as long as the list, the loop yields the conversions
    of the items and nothing else. *)
Lemma assign_all_fresh conv ins dt :
  type_caster_Pixel.assign_all conv ins 0 (dip.Pixel_new dt (length ins))
  = dip.MkPixel dt <$> loaded_mapM conv ins.
Proof.
  rewrite assign_all_mapM by (simpl; rewrite length_replicate; lia). simpl.
  destruct (loaded_mapM conv ins) as [vs| |e]; simpl; [|done..].
  rewrite drop_ge by (rewrite length_replicate; lia).
  by rewrite (right_id_L [] (++)).
Qed.

(** The scalar conversion of a tag converts or throws [cast_error], and a
    sample it gives for one of the four tags of [load] carries that tag. *)
Lemma scalar_conversion_cases dt o :
  scalar_conversion dt o = Throws cast_error
  ∨ ∃ s, scalar_conversion dt o = Loaded s.
Proof.
  unfold scalar_conversion, cast_bool, cast_sint, cast_dfloat, cast_dcomplex, handle_cast.
  destruct (dip.IsBinary dt); [|destruct (dip.IsComplex dt); [|destruct (dip.IsFloat dt)]].
  - destruct (bool_caster_load o); simpl; eauto.
  - destruct (dcomplex_caster_load o); simpl; eauto.
  - destruct (dfloat_caster_load o); simpl; eauto.
  - destruct (sint_caster_load o); simpl; eauto.
Qed.

Lemma scalar_conversion_tag x dt o s :
  tag_of_scalar x = Some dt →
  scalar_conversion dt o = Loaded s → dip.Sample_DataType s = dt.
Proof.
  unfold tag_of_scalar. intros Htag.
  assert (dt = dip.DT_BIN ∨ dt = dip.DT_SINT64 ∨ dt = dip.DT_DFLOAT ∨ dt = dip.DT_DCOMPLEX)
    as Hdt by (repeat case_match; naive_solver).
  unfold scalar_conversion.
  destruct Hdt as [-> | [-> | [-> | ->]]]; simpl.
  - destruct (cast_bool o); intros H; by simplify_eq/=.
  - destruct (cast_sint o); intros H; by simplify_eq/=.
  - destruct (cast_dfloat o); intros H; by simplify_eq/=.
  - destruct (cast_dcomplex o); intros H; by simplify_eq/=.
Qed.

(** [load] of a non-empty list: the first item picks the tag, and every
    item goes through the conversion of that tag. *)
Lemma Pixel_load_nonempty x xs convert :
  type_caster_Pixel.load (Some (PyList (x :: xs))) convert
  = match tag_of_scalar x with
    | Some dt => dip.MkPixel dt <$> loaded_mapM (scalar_conversion dt) (x :: xs)
    | None => NoMatch
    end.
Proof.
  unfold type_caster_Pixel.load, tag_of_scalar.
  destruct (PyBool_Check x); [apply assign_all_fresh|].
  destruct (PYBIND11_LONG_CHECK x); [apply assign_all_fresh|].
  destruct (PyFloat_Check x); [apply assign_all_fresh|].
  destruct (PyComplex_Check x); [apply assign_all_fresh|done].
Qed.

(** C8: [load] of the empty list returns [false]. *)
Theorem Pixel_load_empty_list (convert : bool) :
  type_caster_Pixel.load (Some (PyList [])) convert = NoMatch.
Proof. reflexivity. Qed.

(** C1: for a non-empty list, [load] picks the tag from the dynamic type of
    the first item alone, tried as a boolean, then an integer, then a
    float, then a complex (and returns [false] where it is none of them).
    The load succeeds exactly with the pixel of that tag whose samples are
    the conversions of all the items, the first included, in order, each
    through the scalar conversion of the tag; so the pixel is as long as
    the list.  Where a later item does not convert to the tag the load
    fails, by the [cast_error] of the conversion: [load([1, "x", 3])]
    fails. *)
Theorem Pixel_load_list (x : PyObj) (xs : list PyObj) (convert : bool) :
  let list := x :: xs in
  let r := type_caster_Pixel.load (Some (PyList list)) convert in
  match tag_of_scalar x with
  | None => r = NoMatch
  | Some dt =>
      (∀ p, r = Loaded p ↔
            dip.Pixel_DataType p = dt
            ∧ Forall2 (λ o s, scalar_conversion dt o = Loaded s) list (dip.Pixel_samples p))
      ∧ (∀ p, r = Loaded p →
              length (dip.Pixel_samples p) = length list ∧ dip.Pixel_wf p)
      ∧ ((∃ o, o ∈ xs ∧ ∀ s, scalar_conversion dt o ≠ Loaded s) → r = Throws cast_error)
      ∧ ((∀ o, o ∈ list → ∃ s, scalar_conversion dt o = Loaded s) → ∃ p, r = Loaded p)
  end
  ∧ (∀ b, tag_of_scalar (PyBool b) = Some dip.DT_BIN)
  ∧ (∀ z, tag_of_scalar (PyLong z) = Some dip.DT_SINT64)
  ∧ (∀ f, tag_of_scalar (PyFloat f) = Some dip.DT_DFLOAT)
  ∧ (∀ c, tag_of_scalar (PyComplex c) = Some dip.DT_DCOMPLEX)
  ∧ type_caster_Pixel.load (Some (PyList [PyLong 1; PyUnicode "x"; PyLong 3])) convert
    = Throws cast_error.
Proof.
  intros list r. split; [|by repeat split].
  subst r list. rewrite Pixel_load_nonempty.
  destruct (tag_of_scalar x) as [dt|] eqn:Htag; [|done].
  assert (∀ p, dip.MkPixel dt <$> loaded_mapM (scalar_conversion dt) (x :: xs) = Loaded p ↔
            dip.Pixel_DataType p = dt
            ∧ Forall2 (λ o s, scalar_conversion dt o = Loaded s) (x :: xs)
                (dip.Pixel_samples p)) as Hiff.
  { intros [dt' samples]. cbn [dip.Pixel_DataType dip.Pixel_samples].
    rewrite <- loaded_mapM_Forall2, fmap_Loaded. split.
    - by intros (vs & Hvs & [= -> ->]).
    - intros [-> Hvs]. by exists samples. }
  split; [exact Hiff|]. split; [|split].
  - intros p (Hdt & Hall)%Hiff. split.
    + symmetry. by eapply Forall2_length.
    + split.
      * inversion Hall; congruence.
      * rewrite Hdt. clear -Hall Htag.
        induction Hall; constructor; [by eapply scalar_conversion_tag | done].
  - intros (o & Ho & Hfail).
    rewrite (loaded_mapM_Throws _ _ cast_error); [done| |].
    + intros y _. apply scalar_conversion_cases.
    + exists o. split; [by right|].
      by destruct (scalar_conversion_cases dt o) as [?|[s ?%Hfail]].
  - intros Hall. destruct (loaded_mapM_total (scalar_conversion dt) (x :: xs) Hall) as [vs Hvs].
    exists (dip.MkPixel dt vs). by rewrite Hvs.
Qed.

(** C10: an input that is not a list is handed to the sample caster, and
    [load] wraps the sample it gives in a one-sample pixel under the
    sample's tag.  So a tuple, whatever its items, makes [load] return
    [false], while a boolean, an integer that fits [dip::sint], a float and
    a complex each load as a pixel of one sample of their tag. *)
Theorem Pixel_load_not_list (o : PyObj) (z : Z) (convert : bool) :
  PyList_Check o = false → fits_sint z = true →
  type_caster_Pixel.load (Some o) convert
  = dip.Pixel_of_Sample <$> type_caster_Sample.load (Some o) convert
  ∧ (∀ items, type_caster_Pixel.load (Some (PyTuple items)) convert = NoMatch)
  ∧ (∀ b, type_caster_Pixel.load (Some (PyBool b)) convert
          = Loaded (dip.MkPixel dip.DT_BIN [dip.Sample_bool b]))
  ∧ type_caster_Pixel.load (Some (PyLong z)) convert
    = Loaded (dip.MkPixel dip.DT_SINT64 [dip.Sample_sint z])
  ∧ (∀ f, type_caster_Pixel.load (Some (PyFloat f)) convert
          = Loaded (dip.MkPixel dip.DT_DFLOAT [dip.Sample_dfloat f]))
  ∧ (∀ c, type_caster_Pixel.load (Some (PyComplex c)) convert
          = Loaded (dip.MkPixel dip.DT_DCOMPLEX [dip.Sample_dcomplex c])).
Proof.
  intros Hnl Hz. repeat split.
  - unfold type_caster_Pixel.load. destruct o; try done.
  - unfold type_caster_Pixel.load, type_caster_Sample.load. simpl.
    by rewrite (cast_sint_fits z Hz).
Qed.

Lemma Pixel_load_not_list_witness :
  type_caster_Pixel.load (Some (PyTuple [PyLong 1; PyLong 2])) true = NoMatch
  ∧ type_caster_Pixel.load (Some (PyLong 9)) true
    = Loaded (dip.MkPixel dip.DT_SINT64 [dip.Sample_sint 9]).
Proof.
  destruct (Pixel_load_not_list (PyTuple [PyLong 1; PyLong 2]) 9 true)
    as (_ & H2 & _ & H4 & _); [reflexivity | reflexivity |].
  split; [apply H2 | exact H4].
Defined.

(** ** [type_caster< dip::DimensionArray< Type >>] *)

Section DimensionArray.
Context {Type_ : Type} (value_conv_load : handle → bool → loaded Type_).

Lemma list_caster_push_mapM items convert value :
  type_caster_DimensionArray.list_caster_push value_conv_load items convert value
  = (λ vs, value ++ vs)%list
    <$> loaded_mapM (λ it, value_conv_load (Some it) convert) items.
Proof.
  revert value. induction items as [|it rest IH]; intros value; simpl.
  - by rewrite (right_id_L [] (++)).
  - destruct (value_conv_load (Some it) convert) as [v| |e]; simpl; [|done..].
    rewrite IH.
    destruct (loaded_mapM _ rest) as [vs| |e]; simpl; [|done..].
    by rewrite <- (assoc_L (++)).
Qed.

Lemma sequence_items_length src : length (sequence_items src) = sequence_size src.
Proof.
  destruct src; simpl; try done; rewrite length_fmap;
    induction s; simpl; congruence.
Qed.
End DimensionArray.

(** C5: on a sequence or a text string, [load] succeeds exactly with the
    conversions of the items, in order, so with an array as long as the
    input, and it fails where an item does not convert; on any other input
    it is the conversion of the input as one value of the element type,
    put in a one-element array. *)
Theorem DimensionArray_load {Type_ : Type} (value_conv_load : handle → bool → loaded Type_)
    (src : PyObj) (convert : bool) :
  let r := type_caster_DimensionArray.load value_conv_load src convert in
  (isinstance_sequence src = true ∨ isinstance_str src = true →
     (∀ vs, r = Loaded vs ↔
            Forall2 (λ it v, value_conv_load (Some it) convert = Loaded v)
              (sequence_items src) vs)
     ∧ (∀ vs, r = Loaded vs → length vs = sequence_size src)
     ∧ ((∃ it, it ∈ sequence_items src ∧ ∀ v, value_conv_load (Some it) convert ≠ Loaded v) →
        ∀ vs, r ≠ Loaded vs))
  ∧ (isinstance_sequence src = false ∧ isinstance_str src = false →
     r = (λ v, [v]) <$> value_conv_load (Some src) convert).
Proof.
  intros r. subst r. unfold type_caster_DimensionArray.load. split.
  - intros Hseq.
    assert (isinstance_sequence src || isinstance_str src = true) as ->
      by (apply orb_true_iff; done).
    unfold type_caster_DimensionArray.list_caster_load.
    rewrite list_caster_push_mapM.
    assert (∀ vs, (λ vs, [] ++ vs)%list
                  <$> loaded_mapM (λ it, value_conv_load (Some it) convert) (sequence_items src)
                  = Loaded vs ↔
                  Forall2 (λ it v, value_conv_load (Some it) convert = Loaded v)
                    (sequence_items src) vs) as Hiff.
    { intros vs. rewrite <- loaded_mapM_Forall2, fmap_Loaded. split.
      - by intros (vs' & -> & ->).
      - intros Hvs. by exists vs. }
    split; [exact Hiff|]. split.
    + intros vs Hall%Hiff. rewrite <- sequence_items_length.
      symmetry. by eapply Forall2_length.
    + intros (it & Hit & Hfail) vs Hall%Hiff.
      apply list_elem_of_lookup in Hit as [i Hi].
      destruct (Forall2_lookup_l _ _ _ _ _ Hall Hi) as (v & _ & Hv).
      by apply Hfail in Hv.
  - intros [-> ->]. simpl.
    by destruct (value_conv_load (Some src) convert).
Qed.

(** ** [ImageOrPixel] *)

(** The only exception that leaves the sample caster and the pixel caster is
    the [cast_error] of a conversion. *)
Lemma Sample_load_Throws src convert e :
  type_caster_Sample.load src convert = Throws e → e = cast_error.
Proof.
  destruct src as [o|]; [|done]. rewrite Sample_load_by_tag.
  destruct (tag_of_scalar o) as [dt|]; [|done].
  destruct (scalar_conversion_cases dt o) as [->|[s ->]]; congruence.
Qed.

Lemma Pixel_load_Throws src convert e :
  type_caster_Pixel.load src convert = Throws e → e = cast_error.
Proof.
  destruct src as [o|]; [|done].
  destruct (decide (PyList_Check o = true)) as [Hl|Hnl].
  - destruct o as [| | | | | | |items| | |]; try done.
    destruct items as [|x xs]; [done|]. rewrite Pixel_load_nonempty.
    destruct (tag_of_scalar x) as [dt|]; [|done].
    rewrite fmap_Throws. intros (y & _ & Hy)%loaded_mapM_Throws_inv.
    destruct (scalar_conversion_cases dt y) as [?|[s ?]]; congruence.
  - assert (type_caster_Pixel.load (Some o) convert
            = dip.Pixel_of_Sample <$> type_caster_Sample.load (Some o) convert) as ->
      by (by destruct o).
    rewrite fmap_Throws. apply Sample_load_Throws.
Qed.

(** C4: where the image caster accepts the object, its image is returned;
    where it does not and the pixel caster accepts it, the image built from
    that pixel is returned, so that [5], which the image caster refuses,
    gives the image of the pixel whose one sample is the signed integer 5;
    and the [dip::RunTimeError] that names [dip::Image] is thrown exactly
    where both casters return [false]. *)
Theorem ImageOrPixel_resolve {Image : Type}
    (image_caster_load : handle → bool → option Image)
    (Image_of_Pixel : dip.Pixel → Image) (obj : PyObj) :
  let resolve := ImageOrPixel image_caster_load Image_of_Pixel in
  (∀ image, image_caster_load (Some obj) true = Some image → resolve obj = Returns image)
  ∧ (∀ pixel, image_caster_load (Some obj) true = None →
              type_caster_Pixel.load (Some obj) true = Loaded pixel →
              resolve obj = Returns (Image_of_Pixel pixel))
  ∧ (resolve obj = Raises (RunTimeError "Cannot convert input to dip::Image") ↔
     image_caster_load (Some obj) true = None
     ∧ type_caster_Pixel.load (Some obj) true = NoMatch)
  ∧ (image_caster_load (Some (PyLong 5)) true = None →
     resolve (PyLong 5)
     = Returns (Image_of_Pixel (dip.MkPixel dip.DT_SINT64 [dip.Sample_sint 5]))).
Proof.
  intros resolve. subst resolve. unfold ImageOrPixel.
  split; [by intros image ->|]. split; [by intros pixel -> ->|]. split; [split|].
  - destruct (image_caster_load (Some obj) true); [done|].
    destruct (type_caster_Pixel.load (Some obj) true) as [p| |e] eqn:Hp; [done..|].
    apply Pixel_load_Throws in Hp as ->. done.
  - by intros [-> ->].
  - by intros ->.
Qed.

(** * Further properties of the casters *)

(** ** [type_caster< dip::Range >]: outcomes and stability *)

Lemma PyLong_AsSsize_t_range o : fits_sint (PyLong_AsSsize_t o) = true.
Proof.
  destruct o as [|[]|z| | | | | | | |]; try reflexivity.
  simpl. destruct (fits_sint z) eqn:Hz; [exact Hz | reflexivity].
Qed.

Lemma Range_component_range o dflt v :
  fits_sint dflt = true →
  type_caster_Range.component o dflt = Loaded v → fits_sint v = true.
Proof.
  intros Hd. unfold type_caster_Range.component.
  destruct (PyNone_Check o); [by intros [= <-]|].
  destruct (PYBIND11_LONG_CHECK o); [|done].
  intros [= <-]. apply PyLong_AsSsize_t_range.
Qed.

(** The step [load] stores for a step read as [s]: its magnitude, at most
    [2^63]. *)
Lemma Range_stored_step s :
  fits_sint s = true →
  static_cast_uint (if s <? 0 then sint_neg s else s) = Z.abs s ∧ Z.abs s ≤ 2 ^ 63.
Proof.
  intros Hs. pose proof (proj1 (fits_sint_iff s) Hs) as Hr.
  unfold sint_min, sint_max in Hr. split; [|lia].
  destruct (Z.ltb_spec s 0).
  - by apply uint_of_sint_neg.
  - rewrite Z.abs_eq by done. apply static_cast_uint_fits, fits_uint_iff.
    unfold uint_max. lia.
Qed.

Lemma static_cast_sint_range z : fits_sint (static_cast_sint z) = true.
Proof.
  apply fits_sint_iff. unfold static_cast_sint, sint_min, sint_max.
  pose proof (Z.mod_pos_bound (z + 2 ^ 63) (2 ^ 64)). lia.
Qed.

(** [load] of what [cast] builds from a range with machine-integer fields:
    start and stop come back, the step comes back up to [2^63] and as
    [2^64 - step] beyond. *)
Lemma Range_load_of_cast r convert :
  dip.Range_wf r →
  type_caster_Range.load (Some (type_caster_Range.cast r)) convert
  = Loaded (dip.MkRange (dip.start r) (dip.stop r)
              (if dip.step r <=? 2 ^ 63 then dip.step r else 2 ^ 64 - dip.step r)).
Proof.
  intros (Hstart & Hstop & Hstep). unfold type_caster_Range.cast.
  rewrite (Range_load_slice (Some (dip.start r)) (Some (dip.stop r))
             (Some (static_cast_sint (dip.step r)))); [|done..|apply static_cast_sint_range].
  simpl. do 2 f_equal.
  apply fits_uint_iff in Hstep. unfold uint_max in Hstep.
  unfold static_cast_sint. destruct (Z.leb_spec (dip.step r) (2 ^ 63)) as [Hle|Hgt].
  - destruct (decide (dip.step r = 2 ^ 63)) as [->|Hne]; [reflexivity|].
    rewrite Z.mod_small by lia. lia.
  - replace (dip.step r + 2 ^ 63) with (dip.step r - 2 ^ 63 + 1 * 2 ^ 64) by lia.
    rewrite Z.mod_add by lia. rewrite Z.mod_small by lia. lia.
Qed.

(** X1: on a slice, [load] returns [false] exactly where one of the three
    components is neither [None] nor an integer, whatever the other two
    are; and it never throws on a slice. *)
Theorem Range_load_slice_outcome (ptr_start ptr_stop ptr_step : PyObj) (convert : bool) :
  (type_caster_Range.load (Some (PySlice ptr_start ptr_stop ptr_step)) convert = NoMatch
   ↔ slice_component_ok ptr_start && slice_component_ok ptr_stop
     && slice_component_ok ptr_step = false)
  ∧ (∀ e, type_caster_Range.load (Some (PySlice ptr_start ptr_stop ptr_step)) convert
          ≠ Throws e).
Proof.
  unfold type_caster_Range.load, type_caster_Range.component, slice_component_ok.
  destruct (PyNone_Check ptr_step), (PYBIND11_LONG_CHECK ptr_step),
    (PyNone_Check ptr_start), (PYBIND11_LONG_CHECK ptr_start),
    (PyNone_Check ptr_stop), (PYBIND11_LONG_CHECK ptr_stop); simpl;
    (split; [split; intros H; (done || discriminate H) | intros e H; discriminate H]).
Qed.

(** X2: whatever [load] accepts, a slice or an integer, within [dip::sint]
    or beyond, the range it stores has machine-integer fields and a step
    of at most [2^63]; and [cast] of that range loads as the same range
    again. *)
Theorem Range_load_stable (src : handle) (convert convert' : bool) (r : dip.Range) :
  type_caster_Range.load src convert = Loaded r →
  dip.Range_wf r ∧ dip.step r ≤ 2 ^ 63
  ∧ type_caster_Range.load (Some (type_caster_Range.cast r)) convert' = Loaded r.
Proof.
  intros Hload.
  assert (dip.Range_wf r ∧ dip.step r ≤ 2 ^ 63) as [Hwf Hstep].
  { destruct src as [o|]; [|done]. unfold type_caster_Range.load in Hload.
    destruct o as [| | | | | | | | |ptr_start ptr_stop ptr_step|];
      try done; simpl in Hload.
    - (* a boolean, read as an integer *)
      destruct (cast_sint (PyBool b)) as [i| |] eqn:Hi; [|done..].
      injection Hload as <-. destruct b; injection Hi as <-; by repeat split.
    - destruct (cast_sint (PyLong z)) as [i| |] eqn:Hi; [|done..].
      injection Hload as <-. unfold cast_sint, handle_cast, sint_caster_load in Hi.
      simpl in Hi. destruct (fits_sint z) eqn:Hz; [|done]. injection Hi as <-.
      by repeat split.
    - destruct (type_caster_Range.component ptr_step 1) as [s| |] eqn:Hs; [|done..].
      simpl in Hload.
      destruct (type_caster_Range.component ptr_start _) as [a| |] eqn:Ha; [|done..].
      simpl in Hload.
      destruct (type_caster_Range.component ptr_stop _) as [b| |] eqn:Hb; [|done..].
      simpl in Hload. injection Hload as <-.
      apply Range_component_range in Hs; [|done].
      apply Range_component_range in Ha; [|by destruct (s <? 0)].
      apply Range_component_range in Hb; [|by destruct (s <? 0)].
      destruct (Range_stored_step s Hs) as [Heq Hle].
      unfold dip.Range_of, dip.Range_wf. simpl. rewrite Heq.
      repeat split; [done..| |done].
      apply fits_uint_iff. unfold uint_max. lia. }
  repeat split; [apply Hwf.. | done |].
  rewrite Range_load_of_cast by done.
  apply Z.leb_le in Hstep. rewrite Hstep. by destruct r.
Qed.

Lemma Range_load_stable_witness :
  dip.Range_wf (dip.MkRange (-1) 0 (2 ^ 63))
  ∧ type_caster_Range.load
      (Some (type_caster_Range.cast (dip.MkRange (-1) 0 (2 ^ 63)))) false
    = Loaded (dip.MkRange (-1) 0 (2 ^ 63)).
Proof.
  destruct (Range_load_stable (Some (PySlice PyNone PyNone (PyLong (- 2 ^ 63)))) true false
              (dip.MkRange (-1) 0 (2 ^ 63))) as (H1 & _ & H3); [reflexivity|].
  split; [exact H1 | exact H3].
Defined.

(** X3: for a range with machine-integer fields, [load] of its [cast] is
    the range itself exactly where the step is at most [2^63]; a larger
    step comes back as [2^64 - step], start and stop unchanged. *)
Theorem Range_cast_load_iff (r : dip.Range) (convert : bool) :
  dip.Range_wf r →
  (type_caster_Range.load (Some (type_caster_Range.cast r)) convert = Loaded r
   ↔ dip.step r ≤ 2 ^ 63)
  ∧ (2 ^ 63 < dip.step r →
     type_caster_Range.load (Some (type_caster_Range.cast r)) convert
     = Loaded (dip.MkRange (dip.start r) (dip.stop r) (2 ^ 64 - dip.step r))).
Proof.
  intros Hwf. rewrite Range_load_of_cast by done.
  destruct (Z.leb_spec (dip.step r) (2 ^ 63)) as [Hle|Hgt].
  - split; [|lia]. split; [done|]. intros _. by destruct r.
  - split; [|done]. split; [|lia].
    destruct r as [a b s]. simpl in *. intros [= Hs]. lia.
Qed.

Lemma Range_cast_load_iff_witness :
  type_caster_Range.load
    (Some (type_caster_Range.cast (dip.MkRange 0 9 (2 ^ 64 - 2)))) true
  = Loaded (dip.MkRange 0 9 2).
Proof.
  destruct (Range_cast_load_iff (dip.MkRange 0 9 (2 ^ 64 - 2)) true) as [_ H];
    [by repeat split|].
  apply H. reflexivity.
Defined.

(** X4: with start and stop both given, a step and its negation load as
    the same range: the direction of a slice is kept only in the defaults
    of the components left unset. *)
Theorem Range_load_step_sign (start stop step : Z) (convert : bool) :
  fits_sint start = true → fits_sint stop = true →
  fits_sint step = true → fits_sint (- step) = true →
  type_caster_Range.load (Some (PySlice (PyLong start) (PyLong stop) (PyLong step))) convert
  = type_caster_Range.load
      (Some (PySlice (PyLong start) (PyLong stop) (PyLong (- step)))) convert
  ∧ (step ≠ 0 →
     type_caster_Range.load (Some (PySlice PyNone PyNone (PyLong step))) convert
     ≠ type_caster_Range.load (Some (PySlice PyNone PyNone (PyLong (- step)))) convert).
Proof.
  intros Hstart Hstop Hstep Hneg. split.
  - rewrite (Range_load_slice (Some start) (Some stop) (Some step)) by done.
    rewrite (Range_load_slice (Some start) (Some stop) (Some (- step))) by done.
    simpl. by rewrite Z.abs_opp.
  - intros Hnz.
    rewrite (Range_load_slice None None (Some step)) by done.
    rewrite (Range_load_slice None None (Some (- step))) by done.
    simpl. destruct (Z.ltb_spec step 0), (Z.ltb_spec (- step) 0); try lia; done.
Qed.

Lemma Range_load_step_sign_witness :
  type_caster_Range.load (Some (PySlice (PyLong 8) (PyLong 2) (PyLong 3))) true
  = type_caster_Range.load (Some (PySlice (PyLong 8) (PyLong 2) (PyLong (- 3)))) true.
Proof.
  apply (Range_load_step_sign 8 2 3 true); reflexivity.
Defined.



(** ** [type_caster< dip::Image::Sample >]: what is accepted comes back *)

(** X6: a sample that [load] produces casts back to the very Python value
    it was loaded from, and an integer it holds fits [dip::sint]: the
    caster loses nothing of what it accepts. *)
Theorem Sample_cast_of_load (src : handle) (convert : bool) (s : dip.Sample) :
  type_caster_Sample.load src convert = Loaded s →
  src = Some (type_caster_Sample.cast s) ∧ Sample_wf s.
Proof.
  destruct src as [o|]; [|done]. unfold type_caster_Sample.load.
  destruct o as [|b|z|f|c| | | | | |]; simpl; try done.
  - by intros [= <-].
  - unfold cast_sint, handle_cast, sint_caster_load. simpl.
    destruct (fits_sint z) eqn:Hz; simpl; [|done]. by intros [= <-].
  - by intros [= <-].
  - by intros [= <-].
Qed.

Lemma Sample_cast_of_load_witness :
  Some (PyFloat (dfloat_of_Z 3))
  = Some (type_caster_Sample.cast (dip.Sample_dfloat (dfloat_of_Z 3))).
Proof.
  apply (Sample_cast_of_load (Some (PyFloat (dfloat_of_Z 3))) true
           (dip.Sample_dfloat (dfloat_of_Z 3))).
  reflexivity.
Defined.

(** X7: [load] throws only on an integer that does not fit [dip::sint], and
    what it throws there is [cast_error]; every other input is loaded or
    makes it return [false]. *)
Theorem Sample_load_Throws_iff (src : handle) (convert : bool) (e : exception) :
  type_caster_Sample.load src convert = Throws e
  ↔ e = cast_error ∧ ∃ z, src = Some (PyLong z) ∧ fits_sint z = false.
Proof.
  split.
  - destruct src as [o|]; [|done]. unfold type_caster_Sample.load.
    destruct o as [|b|z|f|c| | | | | |]; simpl; try done.
    unfold cast_sint, handle_cast, sint_caster_load. simpl.
    destruct (fits_sint z) eqn:Hz; simpl; [done|].
    intros [= <-]. split; [done|]. by exists z.
  - intros (-> & z & -> & Hz). unfold type_caster_Sample.load.
    unfold cast_sint, handle_cast, sint_caster_load. simpl. by rewrite Hz.
Qed.

(** ** The enumeration casters: which inputs are names *)

Lemma DataType_of_String_Loaded name x :
  dip.DataType_of_String name = Loaded x → dip.Name x = name.
Proof.
  unfold dip.DataType_of_String.
  repeat match goal with
         | |- context [String.eqb name ?n] =>
             destruct (String.eqb_spec name n) as [->|_]; [by intros [= <-]|]
         end.
  done.
Qed.

Lemma ShapeFromString_Loaded name x :
  dip.Tensor.ShapeFromString name = Loaded x → dip.Tensor.ShapeToString x = name.
Proof.
  unfold dip.Tensor.ShapeFromString.
  repeat match goal with
         | |- context [String.eqb name ?n] =>
             destruct (String.eqb_spec name n) as [->|_]; [by intros [= <-]|]
         end.
  done.
Qed.

Lemma DataType_of_String_outcome name :
  (∃ x, dip.DataType_of_String name = Loaded x)
  ∨ dip.DataType_of_String name = Throws (ParameterError name).
Proof.
  unfold dip.DataType_of_String.
  repeat match goal with
         | |- context [String.eqb name ?n] =>
             destruct (String.eqb name n); [left; by eexists|]
         end.
  by right.
Qed.

Lemma ShapeFromString_outcome name :
  (∃ x, dip.Tensor.ShapeFromString name = Loaded x)
  ∨ dip.Tensor.ShapeFromString name = Throws (ParameterError name).
Proof.
  unfold dip.Tensor.ShapeFromString.
  repeat match goal with
         | |- context [String.eqb name ?n] =>
             destruct (String.eqb name n); [left; by eexists|]
         end.
  by right.
Qed.

Lemma Enum_load_text name convert :
  (∀ o, o = PyUnicode name ∨ o = PyBytes name →
        type_caster_DataType.load (Some o) convert = dip.DataType_of_String name)
  ∧ (∀ o, o = PyUnicode name ∨ o = PyBytes name →
          type_caster_Tensor_Shape.load (Some o) convert = dip.Tensor.ShapeFromString name).
Proof. split; intros o [-> | ->]; reflexivity. Qed.

(** X8: on a text, [str] or [bytes] alike, the two enumeration casters
    load a member exactly where the text is that member's canonical name,
    so that [cast] of what was loaded is the text again, as a [str]; any
    other text makes [load] throw the lookup error with that text, not
    return [false]. *)
Theorem Enum_load_names (name : string) (o : PyObj) (convert : bool) :
  o = PyUnicode name ∨ o = PyBytes name →
  (∀ x, type_caster_DataType.load (Some o) convert = Loaded x ↔ dip.Name x = name)
  ∧ (∀ x, type_caster_DataType.load (Some o) convert = Loaded x →
          type_caster_DataType.cast x = PyUnicode name)
  ∧ ((∀ x, dip.Name x ≠ name) →
     type_caster_DataType.load (Some o) convert = Throws (ParameterError name))
  ∧ (∀ x, type_caster_Tensor_Shape.load (Some o) convert = Loaded x
          ↔ dip.Tensor.ShapeToString x = name)
  ∧ (∀ x, type_caster_Tensor_Shape.load (Some o) convert = Loaded x →
          type_caster_Tensor_Shape.cast x = PyUnicode name)
  ∧ ((∀ x, dip.Tensor.ShapeToString x ≠ name) →
     type_caster_Tensor_Shape.load (Some o) convert = Throws (ParameterError name)).
Proof.
  intros Ho. destruct (Enum_load_text name convert) as [Hdt Hshape].
  rewrite (Hdt o Ho), (Hshape o Ho). repeat split.
  - apply DataType_of_String_Loaded.
  - intros <-. by destruct x.
  - intros x Hx. unfold type_caster_DataType.cast.
    by rewrite (DataType_of_String_Loaded _ _ Hx).
  - intros Hnone. destruct (DataType_of_String_outcome name) as [[x Hx]|Hthrow]; [|done].
    by apply DataType_of_String_Loaded, Hnone in Hx.
  - apply ShapeFromString_Loaded.
  - intros <-. by destruct x.
  - intros x Hx. unfold type_caster_Tensor_Shape.cast.
    by rewrite (ShapeFromString_Loaded _ _ Hx).
  - intros Hnone. destruct (ShapeFromString_outcome name) as [[x Hx]|Hthrow]; [|done].
    by apply ShapeFromString_Loaded, Hnone in Hx.
Qed.

Lemma Enum_load_names_witness :
  type_caster_DataType.load (Some (PyBytes "SFLOAT")) true = Loaded dip.DT_SFLOAT
  ∧ type_caster_DataType.load (Some (PyBytes "sfloat")) true
    = Throws (ParameterError "sfloat").
Proof.
  destruct (Enum_load_names "SFLOAT" (PyBytes "SFLOAT") true) as (H1 & _);
    [by right|].
  destruct (Enum_load_names "sfloat" (PyBytes "sfloat") true) as (_ & _ & H3 & _);
    [by right|].
  split; [by apply H1 | apply H3; by intros []].
Defined.

(** X9: the two enumeration casters return [false] exactly on the null
    handle and on a value that is neither a [str] nor a [bytes]; on a text
    they load or throw. *)
Theorem Enum_load_NoMatch_iff (src : handle) (convert : bool) :
  (type_caster_DataType.load src convert = NoMatch
   ↔ match src with Some o => is_text o = false | None => True end)
  ∧ (type_caster_Tensor_Shape.load src convert = NoMatch
     ↔ match src with Some o => is_text o = false | None => True end).
Proof.
  destruct src as [o|]; [|done].
  unfold type_caster_DataType.load, type_caster_Tensor_Shape.load, is_text.
  destruct (PYBIND11_BYTES_CHECK o || PyUnicode_Check o) eqn:Htext; [|done].
  assert (∃ name, o = PyUnicode name ∨ o = PyBytes name) as [name Ho]
    by (destruct o; try done; eauto).
  assert (cast_String o = Loaded name) as -> by (by destruct Ho as [-> | ->]).
  simpl. split; (split; [|done]).
  - by destruct (DataType_of_String_outcome name) as [[x ->]| ->].
  - by destruct (ShapeFromString_outcome name) as [[x ->]| ->].
Qed.

(** ** [type_caster< dip::Image::Pixel >]: [cast], and [load] after it *)

Lemma scalar_conversion_wf dt o s :
  scalar_conversion dt o = Loaded s → Sample_wf s.
Proof.
  unfold scalar_conversion.
  destruct (dip.IsBinary dt); [|destruct (dip.IsComplex dt); [|destruct (dip.IsFloat dt)]];
    intros (v & Hv & ->)%fmap_Loaded; try done.
  unfold cast_sint, handle_cast, sint_caster_load in Hv. simpl.
  destruct (PyFloat_Check o); [done|].
  destruct o as [|[]|z| | | | | | | |]; try done.
  - by injection Hv as <-.
  - by injection Hv as <-.
  - destruct (fits_sint z) eqn:Hz; [|done]. by injection Hv as <-.
Qed.

Lemma Sample_cast_tag s :
  tag_of_scalar (type_caster_Sample.cast s) = Some (dip.Sample_DataType s).
Proof. by destruct s. Qed.

Lemma scalar_conversion_of_cast s :
  Sample_wf s →
  scalar_conversion (dip.Sample_DataType s) (type_caster_Sample.cast s) = Loaded s.
Proof.
  destruct s as [v|v|v|v]; simpl; intros Hwf; try reflexivity.
  unfold scalar_conversion. simpl. by rewrite (cast_sint_fits v Hwf).
Qed.

(** A Python scalar that converted under a tag casts back to itself exactly
    where its own dynamic type stands for that tag. *)
Lemma scalar_conversion_cast_iff x dt o s :
  tag_of_scalar x = Some dt →
  scalar_conversion dt o = Loaded s →
  (type_caster_Sample.cast s = o ↔ tag_of_scalar o = Some dt).
Proof.
  intros Htag Hconv.
  pose proof (scalar_conversion_tag x dt o s Htag Hconv) as Hs.
  split.
  - intros <-. by rewrite Sample_cast_tag, Hs.
  - intros Ho. revert Hconv. unfold scalar_conversion.
    destruct o as [|b|z|f|c| | | | | |]; try done; simpl in Ho; injection Ho as <-; simpl.
    + by intros [= <-].
    + unfold cast_sint, handle_cast, sint_caster_load. simpl.
      destruct (fits_sint z); simpl; [|done]. by intros [= <-].
    + by intros [= <-].
    + by intros [= <-].
Qed.

(** What [load] has loaded, and from what. *)
Lemma Pixel_load_Loaded_inv src convert p :
  type_caster_Pixel.load src convert = Loaded p →
  (∃ x xs, src = Some (PyList (x :: xs))
           ∧ tag_of_scalar x = Some (dip.Pixel_DataType p)
           ∧ Forall2 (λ o s, scalar_conversion (dip.Pixel_DataType p) o = Loaded s)
               (x :: xs) (dip.Pixel_samples p))
  ∨ (∃ o s, src = Some o ∧ PyList_Check o = false
            ∧ type_caster_Sample.load (Some o) convert = Loaded s
            ∧ p = dip.Pixel_of_Sample s).
Proof.
  destruct src as [o|]; [|done].
  destruct (PyList_Check o) eqn:Hl.
  - destruct o as [| | | | | | |items| | |]; try done.
    destruct items as [|x xs]; [done|]. rewrite Pixel_load_nonempty.
    destruct (tag_of_scalar x) as [dt|] eqn:Htag; [|done].
    intros (vs & Hvs & ->)%fmap_Loaded. left. exists x, xs. simpl.
    repeat split; [done|]. by apply loaded_mapM_Forall2.
  - intros Hload. right.
    assert (type_caster_Pixel.load (Some o) convert
            = dip.Pixel_of_Sample <$> type_caster_Sample.load (Some o) convert) as Heq
      by (by destruct o).
    rewrite Heq in Hload. apply fmap_Loaded in Hload as (s & Hs & ->).
    by exists o, s.
Qed.

(** [load] of the list of the casts of well-formed samples under one tag
    is the pixel of these samples. *)
Lemma Pixel_load_of_casts p convert :
  dip.Pixel_wf p → Forall Sample_wf (dip.Pixel_samples p) →
  type_caster_Pixel.load
    (Some (PyList (type_caster_Sample.cast <$> dip.Pixel_samples p))) convert
  = Loaded p.
Proof.
  destruct p as [dt samples]. intros [Hne Htags] Hwf.
  cbn [dip.Pixel_samples dip.Pixel_DataType] in *.
  destruct samples as [|s0 ss]; [done|].
  assert (dip.Sample_DataType s0 = dt) as Hs0 by (by inversion Htags).
  assert (loaded_mapM (scalar_conversion dt) (type_caster_Sample.cast <$> (s0 :: ss))
          = Loaded (s0 :: ss)) as Hm;
    [|rewrite fmap_cons in *; by rewrite Pixel_load_nonempty, Sample_cast_tag, Hs0, Hm].
  apply loaded_mapM_Forall2, Forall2_fmap_l, Forall_Forall2_diag.
  apply Forall_forall. intros s Hs. simpl.
  rewrite Forall_forall in Htags, Hwf.
  rewrite <- (Htags s Hs). apply scalar_conversion_of_cast, Hwf, Hs.
Qed.

(** A pixel that [load] produces is well formed. *)
Lemma Pixel_load_Loaded_wf src convert p :
  type_caster_Pixel.load src convert = Loaded p →
  dip.Pixel_wf p ∧ Forall Sample_wf (dip.Pixel_samples p)
  ∧ dip.Pixel_DataType p ∈ [dip.DT_BIN; dip.DT_SINT64; dip.DT_DFLOAT; dip.DT_DCOMPLEX].
Proof.
  intros Hload.
  apply Pixel_load_Loaded_inv in Hload
    as [(x & xs & _ & Htag & Hall)|(o & s & _ & _ & Hs & ->)].
  - split; [split|split].
    + inversion Hall; congruence.
    + clear -Hall Htag. induction Hall; constructor;
        [by eapply scalar_conversion_tag | done].
    + clear -Hall. induction Hall; constructor;
        [by eapply scalar_conversion_wf | done].
    + unfold tag_of_scalar in Htag. repeat case_match; simplify_eq;
        rewrite <- Htag; repeat constructor.
  - pose proof (Sample_load_tag _ _ _ Hs) as Htag.
    rewrite Sample_load_by_tag in Hs. rewrite Htag in Hs.
    split; [split|split]; simpl.
    + done.
    + by constructor.
    + constructor; [by eapply scalar_conversion_wf | constructor].
    + unfold tag_of_scalar in Htag. repeat case_match; simplify_eq;
        rewrite <- Htag; repeat constructor.
Qed.

Section PixelCast.
Context (clamp_cast_bool : dip.Sample → bool) (clamp_cast_dcomplex : dip.Sample → dcomplex)
  (clamp_cast_dfloat : dip.Sample → dfloat) (clamp_cast_sint : dip.Sample → Z).

Local Abbreviation Pixel_cast :=
  (type_caster_Pixel.cast clamp_cast_bool clamp_cast_dcomplex clamp_cast_dfloat
     clamp_cast_sint).

(** Where every sample carries the tag of the pixel, each is read at the
    type it holds: [cast] is the list of the casts of the samples. *)
Lemma Pixel_cast_samples p :
  Forall (λ s, dip.Sample_DataType s = dip.Pixel_DataType p) (dip.Pixel_samples p) →
  Pixel_cast p = PyList (type_caster_Sample.cast <$> dip.Pixel_samples p).
Proof.
  destruct p as [dt samples]. simpl. intros Htags.
  unfold type_caster_Pixel.cast. simpl. f_equal.
  destruct (dip.IsBinary dt) eqn:Hb;
    [|destruct (dip.IsComplex dt) eqn:Hc; [|destruct (dip.IsFloat dt) eqn:Hf]];
    apply Forall_fmap_ext_1; eapply Forall_impl; [exact Htags| |exact Htags|
                             |exact Htags| |exact Htags|];
    intros [v|v|v|v] <-; simpl in *; done.
Qed.

(** X10: for a pixel that is not empty, whose samples all carry its tag and
    hold integers within [dip::sint], [cast] is the list of the casts of
    its samples, as long as the pixel, and [load] of that list is the pixel
    again. *)
Theorem Pixel_load_of_cast (p : dip.Pixel) (convert : bool) :
  dip.Pixel_wf p → Forall Sample_wf (dip.Pixel_samples p) →
  Pixel_cast p = PyList (type_caster_Sample.cast <$> dip.Pixel_samples p)
  ∧ sequence_size (Pixel_cast p) = length (dip.Pixel_samples p)
  ∧ type_caster_Pixel.load (Some (Pixel_cast p)) convert = Loaded p.
Proof.
  intros Hwf Hfits. rewrite (Pixel_cast_samples p) by apply Hwf.
  split; [done|]. split; [simpl; apply length_fmap|].
  by apply Pixel_load_of_casts.
Qed.

(** X11: a pixel that [load] produces, from a list or from a scalar, is
    not empty, all its samples carry its tag, which is one of binary,
    signed 64-bit integer, double float and double complex, and hold
    integers within [dip::sint]; and [load] of its [cast] is that pixel
    again. *)
Theorem Pixel_load_stable (src : handle) (convert convert' : bool) (p : dip.Pixel) :
  type_caster_Pixel.load src convert = Loaded p →
  dip.Pixel_wf p
  ∧ Forall Sample_wf (dip.Pixel_samples p)
  ∧ dip.Pixel_DataType p ∈ [dip.DT_BIN; dip.DT_SINT64; dip.DT_DFLOAT; dip.DT_DCOMPLEX]
  ∧ type_caster_Pixel.load (Some (Pixel_cast p)) convert' = Loaded p.
Proof.
  intros Hload.
  destruct (Pixel_load_Loaded_wf _ _ _ Hload) as (Hwf & Hfits & Hdt).
  repeat split; [apply Hwf.. | done | done |].
  rewrite (Pixel_cast_samples p) by apply Hwf.
  by apply Pixel_load_of_casts.
Qed.

(** X12: [load] returns [false] exactly on the null handle, on the empty
    list, on a list whose first item is not a boolean, an integer, a float
    or a complex, whatever follows it, and on a value that is neither a
    list nor one of these scalars; every other failure is thrown. *)
Theorem Pixel_load_NoMatch_iff (src : handle) (convert : bool) :
  type_caster_Pixel.load src convert = NoMatch
  ↔ match src with
    | None => True
    | Some (PyList []) => True
    | Some (PyList (list_0 :: _)) => tag_of_scalar list_0 = None
    | Some o => tag_of_scalar o = None
    end.
Proof.
  destruct src as [o|]; [|done].
  destruct o as [|b|z|f|c| | |items| | |]; try done.
  - unfold type_caster_Pixel.load, type_caster_Sample.load,
      cast_sint, handle_cast, sint_caster_load. simpl.
    by destruct (fits_sint z).
  - destruct items as [|x xs]; [done|]. rewrite Pixel_load_nonempty.
    destruct (tag_of_scalar x) as [dt|]; [|done]. split; [|done].
    destruct (loaded_mapM (scalar_conversion dt) (x :: xs)) as [vs| |e] eqn:Hm;
      [done| |done].
    exfalso. clear -Hm. revert Hm. generalize (x :: xs). intros l.
    induction l as [|y l IH]; simpl; [done|].
    destruct (scalar_conversion_cases dt y) as [->|[s ->]]; simpl; [done|].
    destruct (loaded_mapM (scalar_conversion dt) l); simpl; [done|by intros _; apply IH|done].
Qed.

(** X13: where [load] accepts a list, [cast] of the pixel gives a list of
    the same length whose items all have the dynamic type of the tag, and
    it gives the list back exactly where every item of the list already
    had that type: items of another type come back converted. *)
Theorem Pixel_cast_of_load_list (list : list PyObj) (convert : bool) (p : dip.Pixel) :
  type_caster_Pixel.load (Some (PyList list)) convert = Loaded p →
  sequence_size (Pixel_cast p) = length list
  ∧ Forall (λ o, tag_of_scalar o = Some (dip.Pixel_DataType p))
      (sequence_items (Pixel_cast p))
  ∧ (Pixel_cast p = PyList list
     ↔ Forall (λ o, tag_of_scalar o = Some (dip.Pixel_DataType p)) list).
Proof.
  intros Hload.
  apply Pixel_load_Loaded_inv in Hload
    as [(x & xs & [= ->] & Htag & Hall)|(o & s & [= <-] & Hnl & _)]; [|done].
  assert (Forall (λ s, dip.Sample_DataType s = dip.Pixel_DataType p) (dip.Pixel_samples p))
    as Htags.
  { clear -Hall Htag. induction Hall; constructor;
      [by eapply scalar_conversion_tag | done]. }
  rewrite (Pixel_cast_samples p Htags). simpl. rewrite length_fmap.
  split; [symmetry; exact (Forall2_length _ _ _ Hall)|]. split.
  - apply Forall_fmap. eapply Forall_impl; [exact Htags|].
    intros s <-. apply Sample_cast_tag.
  - clear Htags. revert Hall. generalize (x :: xs), (dip.Pixel_samples p).
    intros l samples Hall. induction Hall as [|o s l samples Hos Hall IH]; [done|].
    rewrite fmap_cons, Forall_cons.
    rewrite <- (scalar_conversion_cast_iff x _ o s Htag Hos). split.
    + intros H. simplify_eq. split; [done|]. by apply IH.
    + intros [Ho Hl]. apply IH in Hl. injection Hl as Hl. by rewrite Ho, Hl.
Qed.

(** X14: a scalar that [load] accepts comes back from [cast] as the list
    of that one scalar. *)
Theorem Pixel_cast_of_load_scalar (o : PyObj) (convert : bool) (p : dip.Pixel) :
  PyList_Check o = false →
  type_caster_Pixel.load (Some o) convert = Loaded p →
  Pixel_cast p = PyList [o].
Proof.
  intros Hnl Hload.
  apply Pixel_load_Loaded_inv in Hload
    as [(x & xs & [= ->] & _)|(o' & s & [= <-] & _ & Hs & ->)]; [done|].
  rewrite Pixel_cast_samples by (by constructor). simpl.
  destruct o as [|b|z|f|c| | | | | |]; try done;
    unfold type_caster_Sample.load in Hs; simpl in Hs.
  - by injection Hs as <-.
  - unfold cast_sint, handle_cast, sint_caster_load in Hs. simpl in Hs.
    destruct (fits_sint z); [|done]. by injection Hs as <-.
  - by injection Hs as <-.
  - by injection Hs as <-.
Qed.
End PixelCast.

Lemma Pixel_load_of_cast_witness :
  type_caster_Pixel.load
    (Some (type_caster_Pixel.cast (λ _, false) (λ _, (S754_zero false, S754_zero false))
             (λ _, S754_zero false) (λ _, 0)
             (dip.MkPixel dip.DT_SINT64 [dip.Sample_sint 4; dip.Sample_sint (-7)]))) true
  = Loaded (dip.MkPixel dip.DT_SINT64 [dip.Sample_sint 4; dip.Sample_sint (-7)]).
Proof.
  apply (Pixel_load_of_cast (λ _, false) (λ _, (S754_zero false, S754_zero false))
           (λ _, S754_zero false) (λ _, 0)
           (dip.MkPixel dip.DT_SINT64 [dip.Sample_sint 4; dip.Sample_sint (-7)]) true).
  - split; [done|]. by repeat constructor.
  - by repeat constructor.
Defined.

Lemma Pixel_load_stable_witness :
  dip.Pixel_wf (dip.MkPixel dip.DT_BIN
                  [dip.Sample_bool true; dip.Sample_bool true; dip.Sample_bool false])
  ∧ type_caster_Pixel.load
      (Some (type_caster_Pixel.cast (λ _, false) (λ _, (S754_zero false, S754_zero false))
               (λ _, S754_zero false) (λ _, 0)
               (dip.MkPixel dip.DT_BIN
                  [dip.Sample_bool true; dip.Sample_bool true; dip.Sample_bool false])))
      false
    = Loaded (dip.MkPixel dip.DT_BIN
                [dip.Sample_bool true; dip.Sample_bool true; dip.Sample_bool false]).
Proof.
  destruct (Pixel_load_stable (λ _, false) (λ _, (S754_zero false, S754_zero false))
              (λ _, S754_zero false) (λ _, 0)
              (Some (PyList [PyBool true; PyLong 2; PyNone])) true false
              (dip.MkPixel dip.DT_BIN
                 [dip.Sample_bool true; dip.Sample_bool true; dip.Sample_bool false]))
    as (H1 & _ & _ & H4); [reflexivity|].
  split; [exact H1 | exact H4].
Defined.

Lemma Pixel_cast_of_load_list_witness :
  sequence_size
    (type_caster_Pixel.cast (λ _, false) (λ _, (S754_zero false, S754_zero false))
       (λ _, S754_zero false) (λ _, 0)
       (dip.MkPixel dip.DT_BIN [dip.Sample_bool false; dip.Sample_bool true]))
  = 2%nat.
Proof.
  destruct (Pixel_cast_of_load_list (λ _, false) (λ _, (S754_zero false, S754_zero false))
              (λ _, S754_zero false) (λ _, 0)
              [PyBool false; PyLong 3] true
              (dip.MkPixel dip.DT_BIN [dip.Sample_bool false; dip.Sample_bool true]))
    as (H1 & _); [reflexivity|].
  exact H1.
Defined.

Lemma Pixel_cast_of_load_scalar_witness :
  type_caster_Pixel.cast (λ _, false) (λ _, (S754_zero false, S754_zero false))
    (λ _, S754_zero false) (λ _, 0) (dip.MkPixel dip.DT_SINT64 [dip.Sample_sint 5])
  = PyList [PyLong 5].
Proof.
  apply (Pixel_cast_of_load_scalar (λ _, false) (λ _, (S754_zero false, S754_zero false))
           (λ _, S754_zero false) (λ _, 0) (PyLong 5) true); reflexivity.
Defined.

(** X15: a list whose first item is a float takes integers and booleans
    too, each as the [double] it converts to, and loads as a double float
    pixel; a list whose first item is an integer throws [cast_error] as
    soon as a float is among the items after it. *)
Theorem Pixel_load_widening (f g : dfloat) (z : Z) (items rest : list PyObj)
    (ds : list dfloat) (convert : bool) :
  Forall2 (λ o d, PyFloat_AsDouble o = Some d) items ds →
  PyFloat g ∈ rest →
  type_caster_Pixel.load (Some (PyList (PyFloat f :: items))) convert
  = Loaded (dip.MkPixel dip.DT_DFLOAT (dip.Sample_dfloat <$> f :: ds))
  ∧ type_caster_Pixel.load (Some (PyList (PyLong z :: rest))) convert
    = Throws cast_error.
Proof.
  intros Hitems Hg. rewrite !Pixel_load_nonempty.
  change (tag_of_scalar (PyFloat f)) with (Some dip.DT_DFLOAT).
  change (tag_of_scalar (PyLong z)) with (Some dip.DT_SINT64). cbv beta iota.
  split.
  - assert (loaded_mapM (scalar_conversion dip.DT_DFLOAT) (PyFloat f :: items)
            = Loaded (dip.Sample_dfloat <$> f :: ds)) as ->; [|done].
    apply loaded_mapM_Forall2, Forall2_fmap_r. constructor; [done|].
    eapply Forall2_impl; [exact Hitems|]. intros o d Hd. simpl.
    unfold scalar_conversion, cast_dfloat, handle_cast, dfloat_caster_load. simpl.
    by rewrite Hd.
  - rewrite (loaded_mapM_Throws _ _ cast_error); [done| |].
    + intros y _. apply scalar_conversion_cases.
    + exists (PyFloat g). split; [by right|done].
Qed.

Lemma Pixel_load_widening_witness :
  type_caster_Pixel.load
    (Some (PyList [PyFloat (dfloat_of_Z 1); PyLong 2; PyLong 3])) true
  = Loaded (dip.MkPixel dip.DT_DFLOAT
              [dip.Sample_dfloat (dfloat_of_Z 1); dip.Sample_dfloat (dfloat_of_Z 2);
               dip.Sample_dfloat (dfloat_of_Z 3)])
  ∧ type_caster_Pixel.load (Some (PyList [PyLong 1; PyFloat (dfloat_of_Z 2)])) true
    = Throws cast_error.
Proof.
  apply (Pixel_load_widening (dfloat_of_Z 1) (dfloat_of_Z 2) 1 [PyLong 2; PyLong 3]
           [PyFloat (dfloat_of_Z 2)] [dfloat_of_Z 2; dfloat_of_Z 3] true).
  - by repeat constructor.
  - by left.
Defined.

(** ** [type_caster< dip::DimensionArray< Type >>]: failures, and arrays of ranges *)

(** X16: on a sequence, the first item that does not convert decides the
    outcome of [load], whatever follows it: where the element converter
    returns [false] on it so does [load], and where it throws, [load]
    throws the same. *)
Theorem DimensionArray_load_first_failure {Type_ : Type}
    (value_conv_load : handle → bool → loaded Type_)
    (src bad : PyObj) (before after : list PyObj) (convert : bool) :
  isinstance_sequence src = true →
  sequence_items src = (before ++ bad :: after)%list →
  Forall (λ it, ∃ v, value_conv_load (Some it) convert = Loaded v) before →
  (value_conv_load (Some bad) convert = NoMatch →
   type_caster_DimensionArray.load value_conv_load src convert = NoMatch)
  ∧ (∀ e, value_conv_load (Some bad) convert = Throws e →
          type_caster_DimensionArray.load value_conv_load src convert = Throws e).
Proof.
  intros Hseq Hitems Hbefore.
  unfold type_caster_DimensionArray.load, type_caster_DimensionArray.list_caster_load.
  rewrite Hseq, Hitems. clear Hitems. simpl. generalize (@nil Type_).
  induction Hbefore as [|it before [v Hv] _ IH]; intros value; simpl.
  - split; [intros ->|intros e ->]; done.
  - rewrite Hv. simpl. apply IH.
Qed.

Lemma DimensionArray_load_first_failure_witness :
  type_caster_DimensionArray.load (λ h _, from_option cast_sint NoMatch h)
    (PyTuple [PyLong 1; PyFloat (dfloat_of_Z 2); PyLong 3]) true
  = Throws cast_error.
Proof.
  destruct (DimensionArray_load_first_failure (λ h _, from_option cast_sint NoMatch h)
              (PyTuple [PyLong 1; PyFloat (dfloat_of_Z 2); PyLong 3])
              (PyFloat (dfloat_of_Z 2)) [PyLong 1] [PyLong 3] true) as [_ H].
  - reflexivity.
  - reflexivity.
  - constructor; [by exists 1 | constructor].
  - by apply H.
Defined.

(** X17: an array of ranges, [dip::DimensionArray< dip::Range >], whose
    elements go through the range caster: a list or tuple of integers that
    fit [dip::sint] loads as the single-index ranges of these integers, in
    order; one such integer alone loads as the array of its one range; and
    a slice alone loads, or fails, as the range caster does on it, as an
    array of one range. *)
Theorem RangeArray_load (zs : list Z) (z : Z) (start stop step : PyObj) (convert : bool) :
  Forall (λ i, fits_sint i = true) zs → fits_sint z = true →
  type_caster_DimensionArray.load type_caster_Range.load (PyList (PyLong <$> zs)) convert
  = Loaded (dip.Range_single <$> zs)
  ∧ type_caster_DimensionArray.load type_caster_Range.load (PyTuple (PyLong <$> zs)) convert
    = Loaded (dip.Range_single <$> zs)
  ∧ type_caster_DimensionArray.load type_caster_Range.load (PyLong z) convert
    = Loaded [dip.Range_single z]
  ∧ type_caster_DimensionArray.load type_caster_Range.load (PySlice start stop step) convert
    = (λ r, [r]) <$> type_caster_Range.load (Some (PySlice start stop step)) convert.
Proof.
  intros Hzs Hz.
  assert (loaded_mapM (λ it, type_caster_Range.load (Some it) convert) (PyLong <$> zs)
          = Loaded (dip.Range_single <$> zs)) as Hm.
  { apply loaded_mapM_Forall2, Forall2_fmap. apply Forall_Forall2_diag.
    eapply Forall_impl; [exact Hzs|]. intros i Hi.
    unfold type_caster_Range.load. simpl. by rewrite (cast_sint_fits i Hi). }
  unfold type_caster_DimensionArray.load, type_caster_DimensionArray.list_caster_load.
  simpl. rewrite !list_caster_push_mapM, Hm. repeat split.
  by rewrite (cast_sint_fits z Hz).
Qed.

Lemma RangeArray_load_witness :
  type_caster_DimensionArray.load type_caster_Range.load
    (PyList [PyLong 0; PyLong 5]) true
  = Loaded [dip.MkRange 0 0 1; dip.MkRange 5 5 1].
Proof.
  destruct (RangeArray_load [0; 5] 0 PyNone PyNone PyNone true) as (H & _).
  - by repeat constructor.
  - reflexivity.
  - exact H.
Defined.

(** ** [ImageOrPixel]: what it throws, and what it builds *)


(** X19: where the image caster refuses the object and [ImageOrPixel]
    returns, the image is built from the pixel the pixel caster loaded,
    and that pixel is not empty and has all its samples under one
    tag. *)
Theorem ImageOrPixel_fallback_pixel {Image : Type}
    (image_caster_load : handle → bool → option Image)
    (Image_of_Pixel : dip.Pixel → Image) (obj : PyObj) (image : Image) :
  image_caster_load (Some obj) true = None →
  ImageOrPixel image_caster_load Image_of_Pixel obj = Returns image →
  ∃ pixel, type_caster_Pixel.load (Some obj) true = Loaded pixel
           ∧ image = Image_of_Pixel pixel
           ∧ dip.Pixel_wf pixel.
Proof.
  unfold ImageOrPixel. intros ->.
  destruct (type_caster_Pixel.load (Some obj) true) as [p| |e] eqn:Hp; [|done..].
  intros [= <-]. exists p. repeat split.
  - by destruct (Pixel_load_Loaded_wf _ _ _ Hp) as [[? _] _].
  - by destruct (Pixel_load_Loaded_wf _ _ _ Hp) as [[_ ?] _].
Qed.

Lemma ImageOrPixel_fallback_pixel_witness :
  ∃ pixel, type_caster_Pixel.load (Some (PyList [PyLong 1; PyLong 2])) true = Loaded pixel
           ∧ dip.MkPixel dip.DT_SINT64 [dip.Sample_sint 1; dip.Sample_sint 2] = pixel
           ∧ dip.Pixel_wf pixel.
Proof.
  exact (ImageOrPixel_fallback_pixel (λ _ _, None) (λ pixel, pixel)
           (PyList [PyLong 1; PyLong 2])
           (dip.MkPixel dip.DT_SINT64 [dip.Sample_sint 1; dip.Sample_sint 2])
           eq_refl eq_refl).
Defined.
